(** * A shallow embedding of the Latitude MCP adapter's API client core

    The development follows the TypeScript sources:
    - [src/utils/error.util.ts]          (typed errors, [Module ErrorUtil])
    - [src/utils/error-handler.util.ts]  (classifier and renderer, [Module ErrorHandler])
    - [src/utils/config.util.ts]         (layered configuration, [Module Config])
    - [src/api.ts]                       (client with abort timer, [Module Api])
    - [src/services/vendor.latitude.service.ts] (client without timer, [Module Vendor])

    JavaScript strings are modelled as [string], numbers that hold HTTP
    status codes and millisecond durations as [Z], [process.env] as a
    [gmap string string], thrown values as the inductive [Thrown]. *)

From Stdlib Require Import ZArith String Ascii List Bool Lia.
From stdpp Require Import base gmap strings list pretty.

Local Open Scope string_scope.
Local Open Scope Z_scope.

(** ** JavaScript idioms used throughout the sources *)
Module Js.

(** [s.includes(p)]: [p] occurs in [s] as a contiguous substring. *)
Fixpoint includes (s p : string) : bool :=
  String.prefix p s ||
  match s with
  | EmptyString => false
  | String _ s' => includes s' p
  end.

(** Truthiness of a string value: only the empty string is falsy. *)
Definition truthy (s : string) : bool :=
  match s with EmptyString => false | String _ _ => true end.

(** [o || d] for [o : string | undefined] and a string default. *)
Definition or_str (o : option string) (d : string) : string :=
  match o with
  | Some s => if truthy s then s else d
  | None => d
  end.

(** [o || undefined]: an empty string collapses to [undefined]. *)
Definition or_undefined (o : option string) : option string :=
  match o with
  | Some s => if truthy s then Some s else None
  | None => None
  end.

(** [n || d] for [n : number | undefined]: [undefined] and [0] are falsy. *)
Definition or_num (o : option Z) (d : Z) : Z :=
  match o with
  | Some n => if n =? 0 then d else n
  | None => d
  end.

(** [o === n] for [o : number | undefined]. *)
Definition num_is (o : option Z) (n : Z) : bool :=
  match o with Some m => m =? n | None => false end.

(** [toLowerCase] on the ASCII range; other bytes are left untouched. *)
Definition lower_ascii (c : ascii) : ascii :=
  let n := nat_of_ascii c in
  if (Nat.leb 65 n && Nat.leb n 90)%bool then ascii_of_nat (n + 32) else c.

Fixpoint toLowerCase (s : string) : string :=
  match s with
  | EmptyString => EmptyString
  | String c s' => String (lower_ascii c) (toLowerCase s')
  end.

(** [parts.join(sep)]. *)
Fixpoint join (sep : string) (parts : list string) : string :=
  match parts with
  | [] => EmptyString
  | [p] => p
  | p :: rest => p ++ sep ++ join sep rest
  end.

(** [path.startsWith('/') ? path.slice(1) : path] *)
Definition strip_leading_slash (path : string) : string :=
  match path with
  | String c rest => if Ascii.eqb c "/"%char then rest else path
  | EmptyString => path
  end.

End Js.

(** ** [src/utils/error.util.ts] *)
Module ErrorUtil.

Inductive ErrorType : Type :=
| AUTH_MISSING
| AUTH_INVALID
| API_ERROR
| UNEXPECTED_ERROR.

(** The upstream error payload [{ name, errorCode, message, details? }]. *)
Record LatitudeError : Type := mkLatitudeError {
  le_name : string;
  le_errorCode : string;
  le_message : string
}.

(** What an [McpError] keeps as [originalError] in the call sites embedded
    here: nothing, the raw response text, a parsed payload, or the caught
    JavaScript error (its name and message). *)
Inductive Original : Type :=
| OrigText (text : string)
| OrigData (data : LatitudeError)
| OrigError (name message : string).

Record McpError : Type := mkMcpError {
  message : string;
  type : ErrorType;
  statusCode : option Z;
  originalError : option Original
}.

Definition createAuthMissingError (msg : string) : McpError :=
  mkMcpError msg AUTH_MISSING None None.

Definition createAuthInvalidError (msg : string) : McpError :=
  mkMcpError msg AUTH_INVALID (Some 401) None.

Definition createApiError (msg : string) (status : option Z)
    (orig : option Original) : McpError :=
  mkMcpError msg API_ERROR status orig.

Definition createUnexpectedError (msg : string) (orig : option Original)
    : McpError :=
  mkMcpError msg UNEXPECTED_ERROR None orig.

End ErrorUtil.

(** ** Values that can be thrown and caught *)

(** [JsError] is a built-in error ([Error], [TypeError], [SyntaxError],
    [DOMException]); [isTypeError] records [instanceof TypeError],
    [js_status] a duck-typed [statusCode] property when one is present.
    [NonError] is any thrown value that is not an [Error]; it is kept as
    the text [String(value)] produces. *)
Inductive Thrown : Type :=
| JsError (isTypeError : bool) (name msg : string) (js_status : option Z)
| LatitudeApiError (data : ErrorUtil.LatitudeError) (status : Z)
| McpErr (e : ErrorUtil.McpError)
| NonError (text : string).

(** [error instanceof Error ? error.message : String(error)] *)
Definition message_of (e : Thrown) : string :=
  match e with
  | JsError _ _ m _ => m
  | LatitudeApiError d _ => ErrorUtil.le_message d
  | McpErr m => ErrorUtil.message m
  | NonError t => t
  end.

(** [error instanceof Error && 'statusCode' in error ? error.statusCode : undefined] *)
Definition status_of (e : Thrown) : option Z :=
  match e with
  | JsError _ _ _ s => s
  | LatitudeApiError _ s => Some s
  | McpErr m => ErrorUtil.statusCode m
  | NonError _ => None
  end.

(** ** [src/utils/error-handler.util.ts] *)
Module ErrorHandler.
Import Js.

Inductive ErrorCode : Type :=
| NOT_FOUND
| INVALID_CURSOR
| ACCESS_DENIED
| VALIDATION_ERROR
| UNEXPECTED_ERROR
| NETWORK_ERROR
| RATE_LIMIT_ERROR.

Definition ErrorCode_eqb (a b : ErrorCode) : bool :=
  match a, b with
  | NOT_FOUND, NOT_FOUND | INVALID_CURSOR, INVALID_CURSOR
  | ACCESS_DENIED, ACCESS_DENIED | VALIDATION_ERROR, VALIDATION_ERROR
  | UNEXPECTED_ERROR, UNEXPECTED_ERROR | NETWORK_ERROR, NETWORK_ERROR
  | RATE_LIMIT_ERROR, RATE_LIMIT_ERROR => true
  | _, _ => false
  end.

(** [entityId?: string | Record<string, string>]; a record is kept as its
    entries in insertion order, which is the order of [Object.values]. *)
Inductive EntityId : Type :=
| IdString (s : string)
| IdRecord (entries : list (string * string)).

Record ErrorContext : Type := mkErrorContext {
  source : option string;
  entityType : option string;
  entityId : option EntityId;
  operation : option string
}.

Definition emptyContext : ErrorContext := mkErrorContext None None None None.

Record Detected : Type := mkDetected {
  code : ErrorCode;
  statusCode : Z
}.

(** The message tests of [detectErrorType], one per category, in the
    order of the source. *)
Definition network_phrase (m : string) : bool :=
  includes m "network error" || includes m "fetch failed" ||
  includes m "ECONNREFUSED" || includes m "ENOTFOUND" ||
  includes m "Failed to fetch" || includes m "Network request failed".

Definition rate_limit_phrase (m : string) : bool :=
  includes m "rate limit" || includes m "too many requests".

Definition not_found_phrase (m : string) : bool :=
  includes m "not found" || includes m "does not exist".

Definition access_phrase (m : string) : bool :=
  includes m "access" || includes m "permission" ||
  includes m "authorize" || includes m "authentication".

Definition cursor_phrase (m : string) : bool :=
  (includes m "cursor" || includes m "startAt" || includes m "page") &&
  (includes m "invalid" || includes m "not valid").

Definition validation_phrase (m : string) : bool :=
  includes m "validation" || includes m "invalid" || includes m "required".

Definition detectErrorType (error : Thrown) (context : ErrorContext)
    : Detected :=
  let errorMessage := message_of error in
  let statusCode := status_of error in
  if network_phrase errorMessage then
    mkDetected NETWORK_ERROR 500
  else if rate_limit_phrase errorMessage || num_is statusCode 429 then
    mkDetected RATE_LIMIT_ERROR 429
  else if not_found_phrase errorMessage || num_is statusCode 404 then
    mkDetected NOT_FOUND 404
  else if access_phrase errorMessage || num_is statusCode 401
          || num_is statusCode 403 then
    mkDetected ACCESS_DENIED (or_num statusCode 403)
  else if cursor_phrase errorMessage then
    mkDetected INVALID_CURSOR 400
  else if validation_phrase errorMessage || num_is statusCode 400
          || num_is statusCode 422 then
    mkDetected VALIDATION_ERROR (or_num statusCode 400)
  else
    mkDetected UNEXPECTED_ERROR (or_num statusCode 500).

(** [entityIdStr] of [createUserFriendlyErrorMessage]. *)
Definition entityIdStr_of (id : option EntityId) : string :=
  match id with
  | Some (IdString s) => s
  | Some (IdRecord entries) => join "/" (map snd entries)
  | None => EmptyString
  end.

Definition createUserFriendlyErrorMessage (code : ErrorCode)
    (context : ErrorContext) (originalMessage : option string) : string :=
  let entityIdStr := entityIdStr_of (entityId context) in
  let entity :=
    match entityType context with
    | Some t =>
        if truthy t
        then t ++ (if truthy entityIdStr then " " ++ entityIdStr else EmptyString)
        else "Resource"
    | None => "Resource"
    end in
  let message :=
    match code with
    | NOT_FOUND =>
        entity ++ " not found" ++
        (if truthy entityIdStr then ": " ++ entityIdStr else EmptyString) ++
        ". Verify the ID is correct and that you have access to this " ++
        or_str (option_map toLowerCase (entityType context)) "resource" ++ "."
    | ACCESS_DENIED =>
        "Access denied for " ++ toLowerCase entity ++
        (if truthy entityIdStr then " " ++ entityIdStr else EmptyString) ++
        ". Verify your credentials and permissions."
    | INVALID_CURSOR =>
        "Invalid pagination cursor. Use the exact cursor string returned from previous results."
    | VALIDATION_ERROR =>
        or_str originalMessage
          ("Invalid data provided for " ++
           or_str (operation context) "operation" ++ " " ++
           toLowerCase entity ++ ".")
    | NETWORK_ERROR =>
        "Network error while " ++
        or_str (operation context) "connecting to" ++
        " the service. Please check your internet connection and try again."
    | RATE_LIMIT_ERROR =>
        "Rate limit exceeded. Please wait a moment and try again, or reduce the frequency of requests."
    | UNEXPECTED_ERROR =>
        "An unexpected error occurred while " ++
        or_str (operation context) "processing" ++ " " ++
        toLowerCase entity ++ "."
    end in
  match originalMessage with
  | Some original =>
      if truthy original
         && negb (ErrorCode_eqb code NOT_FOUND)
         && negb (ErrorCode_eqb code ACCESS_DENIED)
      then message ++ " Error details: " ++ original
      else message
  | None => message
  end.

End ErrorHandler.

(** ** [src/utils/config.util.ts] *)
Module Config.
Import Js.

(** The file-system operations the loader performs, in program order.
    The log is ghost state: it lets a statement count source reads. *)
Inductive FsEvent : Type :=
| DotenvConfig          (* dotenv.config() opens and reads ./.env *)
| ExistsGlobalConfig    (* fs.existsSync($HOME/.mcp/configs.json) *)
| ReadGlobalConfig.     (* fs.readFileSync($HOME/.mcp/configs.json) *)

(** [process.env] together with the log of file-system operations. *)
Record Process : Type := mkProcess {
  env : gmap string string;
  fs_log : list FsEvent
}.

(** The instance fields of [class ConfigLoader]. *)
Record ConfigLoader : Type := mkConfigLoader {
  packageName : string;
  configLoaded : bool
}.

(** [$HOME/.mcp/configs.json]: missing, unreadable (the read or
    [JSON.parse] throws), or a parsed object.  A section [config[key]]
    is [Some entries] when it is an object whose [environments] is set,
    with [entries] the result of [Object.entries(environments)] after
    [String(value)]; any other value of [config[key]] is [None]. *)
Inductive GlobalConfig : Type :=
| GlobalMissing
| GlobalUnreadable
| GlobalParsed (sections : gmap string (option (list (string * string)))).

(** The two files the loader consults.  [dotenv_file] is the parsed
    content of [./.env], or [None] when [dotenv.config()] reports an
    error (no file, unreadable). *)
Record Files : Type := mkFiles {
  dotenv_file : option (list (string * string));
  global_config : GlobalConfig
}.

(** The assignment step shared by both sources: a key is written unless
    [process.env] already has it and [override] is off. *)
Definition set_entry (override : bool) (e : gmap string string)
    (kv : string * string) : gmap string string :=
  match e !! kv.1 with
  | Some _ => if override then <[kv.1 := kv.2]> e else e
  | None => <[kv.1 := kv.2]> e
  end.

Definition populate (override : bool) (e : gmap string string)
    (entries : list (string * string)) : gmap string string :=
  foldl (set_entry override) e entries.

(** [dotenv.config(options)] of the dotenv package: every parsed key is
    copied into [process.env] unless the key is already there; the
    package overwrites only under [override: true].  The loader passes
    [debug] and [quiet] only, so it runs with [override] off. *)
Definition dotenv_config (override : bool) (file : option (list (string * string)))
    (p : Process) : Process :=
  match file with
  | None => mkProcess (env p) (fs_log p ++ [DotenvConfig])
  | Some parsed =>
      mkProcess (populate override (env p) parsed) (fs_log p ++ [DotenvConfig])
  end.

Definition loadFromEnvFile (files : Files) (p : Process) : Process :=
  dotenv_config false (dotenv_file files) p.

(** [s.split('/')] *)
Fixpoint split_slash (s : string) : list string :=
  match s with
  | EmptyString => [EmptyString]
  | String c s' =>
      if Ascii.eqb c "/"%char then EmptyString :: split_slash s'
      else match split_slash s' with
           | [] => [String c EmptyString]
           | h :: t => String c h :: t
           end
  end.

(** The first of [potentialKeys] whose section qualifies. *)
Fixpoint find_section (config : gmap string (option (list (string * string))))
    (potentialKeys : list string) : option (string * list (string * string)) :=
  match potentialKeys with
  | [] => None
  | key :: rest =>
      match config !! key with
      | Some (Some environments) => Some (key, environments)
      | _ => find_section config rest
      end
  end.

Definition loadFromGlobalConfig (self : ConfigLoader) (files : Files)
    (p : Process) : Process :=
  match global_config files with
  | GlobalMissing =>
      mkProcess (env p) (fs_log p ++ [ExistsGlobalConfig])
  | GlobalUnreadable =>
      mkProcess (env p) (fs_log p ++ [ExistsGlobalConfig; ReadGlobalConfig])
  | GlobalParsed config =>
      let shortKey := "latitude" in
      let fullPackageName := packageName self in
      let unscopedPackageName :=
        or_str (nth_error (split_slash fullPackageName) 1) fullPackageName in
      let potentialKeys := [shortKey; fullPackageName; unscopedPackageName] in
      let log := (fs_log p ++ [ExistsGlobalConfig; ReadGlobalConfig])%list in
      match find_section config potentialKeys with
      | None => mkProcess (env p) log
      | Some (_, environments) =>
          mkProcess (populate false (env p) environments) log
      end
  end.

(** [ConfigLoader.load]: guarded by [configLoaded]; global config first,
    then the [.env] file. *)
Definition load (files : Files) (st : ConfigLoader * Process)
    : ConfigLoader * Process :=
  let (self, p) := st in
  if configLoaded self then (self, p)
  else
    let p1 := loadFromGlobalConfig self files p in
    let p2 := loadFromEnvFile files p1 in
    (mkConfigLoader (packageName self) true, p2).

(** [config.get(key, defaultValue)] = [process.env[key] || defaultValue] *)
Definition get (p : Process) (key : string) (defaultValue : option string)
    : option string :=
  match or_undefined (env p !! key) with
  | Some v => Some v
  | None => defaultValue
  end.

(** [config.getBoolean(key, defaultValue)] *)
Definition getBoolean (p : Process) (key : string) (defaultValue : bool) : bool :=
  match get p key None with
  | None => defaultValue
  | Some value => String.eqb (toLowerCase value) "true"
  end.

(** The exported singleton, before [load] has run. *)
Definition config : ConfigLoader := mkConfigLoader "mcp-latitude-prompts" false.

End Config.

(** ** [src/utils/error.util.ts]: wrapping, unwrapping and formatting *)
Module ErrorFormat.
Import Js ErrorUtil.

(** The values that travel as [originalError] once errors are wrapped
    more than once: [undefined], a string, a parsed payload, an [Error]
    without an [originalError] property, and an [McpError], whose
    [originalError] is again such a value. *)
Inductive JsValue : Type :=
| JsUndefined
| JsText (text : string)
| JsData (data : LatitudeError)
| JsErr (name msg : string)
| JsMcp (msg : string) (type : ErrorType) (statusCode : option Z)
        (originalError : JsValue).

(** An [McpError] with its [originalError] as a [JsValue]. *)
Record Mcp : Type := mkMcp {
  mcp_message : string;
  mcp_type : ErrorType;
  mcp_statusCode : option Z;
  mcp_originalError : JsValue
}.

Definition value_of_mcp (e : Mcp) : JsValue :=
  JsMcp (mcp_message e) (mcp_type e) (mcp_statusCode e) (mcp_originalError e).

Definition value_of_original (o : option Original) : JsValue :=
  match o with
  | None => JsUndefined
  | Some (OrigText text) => JsText text
  | Some (OrigData data) => JsData data
  | Some (OrigError name msg) => JsErr name msg
  end.

(** A thrown value of the clients as a [JsValue]; a thrown non-error is
    the string it prints as. *)
Definition value_of_thrown (e : Thrown) : JsValue :=
  match e with
  | JsError _ name msg _ => JsErr name msg
  | LatitudeApiError d _ => JsErr (le_name d) (le_message d)
  | McpErr m =>
      JsMcp (message m) (type m) (statusCode m) (value_of_original (originalError m))
  | NonError text => JsText text
  end.

(** Truthiness of a value. *)
Definition is_truthy (v : JsValue) : bool :=
  match v with
  | JsUndefined => false
  | JsText text => truthy text
  | _ => true
  end.

(** [String(value)] *)
Definition to_text (v : JsValue) : string :=
  match v with
  | JsUndefined => "undefined"
  | JsText text => text
  | JsData _ => "[object Object]"
  | JsErr name msg =>
      if negb (truthy name) then msg
      else if truthy msg then name ++ ": " ++ msg else name
  | JsMcp msg _ _ _ =>
      if truthy msg then "McpError: " ++ msg else "McpError"
  end.

(** [ensureMcpError] *)
Definition ensureMcpError (error : JsValue) : Mcp :=
  match error with
  | JsMcp msg type statusCode originalError =>
      mkMcp msg type statusCode originalError
  | JsErr _ msg => mkMcp msg UNEXPECTED_ERROR None error
  | _ => mkMcp (to_text error) UNEXPECTED_ERROR None JsUndefined
  end.

(** The [while] loop of [getDeepOriginalError]; [fuel] is
    [maxDepth - depth]. *)
Fixpoint deep_loop (fuel : nat) (current : JsValue) : JsValue :=
  match fuel with
  | O => current
  | S fuel' =>
      match current with
      | JsMcp _ _ _ originalError =>
          if is_truthy originalError then deep_loop fuel' originalError
          else current
      | _ => current
      end
  end.

Definition maxDepth : nat := 10.

Definition getDeepOriginalError (error : JsValue) : JsValue :=
  if negb (is_truthy error) then error else deep_loop maxDepth error.

(** [errorDetails]: [{ message }] for an [Error], the value itself otherwise. *)
Inductive Details : Type :=
| DetailsMessage (msg : string)
| DetailsValue (v : JsValue).

Record ToolError : Type := mkToolError {
  tool_text : string;            (* content[0].text *)
  isError : bool;
  errorType : ErrorType;         (* metadata.errorType *)
  tool_statusCode : option Z;    (* metadata.statusCode *)
  errorDetails : Details         (* metadata.errorDetails *)
}.

Definition formatErrorForMcpTool (error : JsValue) : ToolError :=
  let mcpError := ensureMcpError error in
  let originalError := getDeepOriginalError (mcp_originalError mcpError) in
  let errorDetails :=
    match originalError with
    | JsErr _ msg => DetailsMessage msg
    | JsMcp msg _ _ _ => DetailsMessage msg
    | other => DetailsValue other
    end in
  mkToolError ("Error: " ++ mcp_message mcpError) true
    (mcp_type mcpError) (mcp_statusCode mcpError) errorDetails.

(** The string value of each member of [enum ErrorType]. *)
Definition ErrorType_text (t : ErrorType) : string :=
  match t with
  | AUTH_MISSING => "AUTH_MISSING"
  | AUTH_INVALID => "AUTH_INVALID"
  | API_ERROR => "API_ERROR"
  | UNEXPECTED_ERROR => "UNEXPECTED_ERROR"
  end.

Record ResourceContent : Type := mkResourceContent {
  rc_uri : string;
  rc_text : string;
  rc_mimeType : string;
  rc_description : option string
}.

(** [formatErrorForMcpResource], its [contents] array. *)
Definition formatErrorForMcpResource (error : JsValue) (uri : string)
    : list ResourceContent :=
  let mcpError := ensureMcpError error in
  [mkResourceContent uri ("Error: " ++ mcp_message mcpError) "text/plain"
     (Some ("Error: " ++ ErrorType_text (mcp_type mcpError)))].

Definition newline : string := String (ascii_of_nat 10) EmptyString.

(** A [console.error] argument that starts with a line break. *)
Definition after_blank (text : string) : string := newline ++ text.

(** [origErr.message] of [handleCliError], for an [originalError] that
    is an object. *)
Definition object_message (v : JsValue) : option string :=
  match v with
  | JsData d => Some (le_message d)
  | JsErr _ msg => Some msg
  | JsMcp msg _ _ _ => Some msg
  | _ => None
  end.

(** The hints [handleCliError] can print. *)
Definition tip_auth_missing : string :=
  after_blank "Tip: Make sure to set up your API token in the configuration file or environment variables.".

Definition tip_auth_invalid : string :=
  after_blank "Tip: Check that your API token is correct and has not expired.".

Definition tip_rate_limit : string :=
  after_blank "Tip: You may have exceeded your API rate limits. Try again later or upgrade your API plan.".

Definition tip_debug : string :=
  after_blank "For more detailed error information, run with DEBUG=mcp:* environment variable.".

(** [handleCliError]: the lines written with [console.error], and the
    exit code handed to [process.exit]. *)
Definition handleCliError (p : Config.Process) (error : JsValue)
    : list string * Z :=
  let mcpError := ensureMcpError error in
  let originalError := getDeepOriginalError (mcp_originalError mcpError) in
  let context_lines :=
    match mcp_type mcpError with
    | AUTH_MISSING => [tip_auth_missing]
    | AUTH_INVALID => [tip_auth_invalid]
    | API_ERROR =>
        ((if num_is (mcp_statusCode mcpError) 429 then [tip_rate_limit] else []) ++
         match object_message originalError with
         | Some msg =>
             if truthy msg then [after_blank ("API error: " ++ msg)%string] else []
         | None => []
         end)%list
    | UNEXPECTED_ERROR => []
    end in
  let debug_lines :=
    match Config.env p !! "DEBUG" with
    | Some value => if String.eqb value "mcp:*" then [] else [tip_debug]
    | None => [tip_debug]
    end in
  ((("Error: " ++ mcp_message mcpError)%string :: context_lines ++ debug_lines)%list, 1).

End ErrorFormat.

(** ** The network as the two clients see it *)
Module Net.

(** The body of a response: its full text once the stream completes, or
    a stream that never completes. *)
Inductive Body : Type :=
| BodyText (text : string)
| BodyStalls.

Record Response : Type := mkResponse {
  status : Z;
  content_length : option string;   (* response.headers.get('content-length') *)
  body : Body
}.

(** [response.ok] *)
Definition ok (r : Response) : bool :=
  (200 <=? status r) && (status r <=? 299).

(** What the promise returned by [fetch] does when nobody aborts it;
    times are milliseconds after the call. *)
Inductive Fetch : Type :=
| Resolves (at_ms : Z) (response : Response)
| Rejects (at_ms : Z) (error : Thrown)
| NeverSettles.

Record HttpRequest : Type := mkHttpRequest {
  url : string;
  method : string;
  headers : gmap string string;
  payload : option string;
  signal : bool          (* an AbortSignal is attached *)
}.

Definition Network : Type := HttpRequest -> Fetch.

(** The fate of an awaited call. *)
Inductive Outcome (A : Type) : Type :=
| Returned (a : A)
| Threw (e : Thrown)
| Pending.
Arguments Returned {A} a.
Arguments Threw {A} e.
Arguments Pending {A}.

(** An outcome together with the requests handed to [fetch], in order. *)
Definition Run (A : Type) : Type := Outcome A * list HttpRequest.

Definition ret {A} (a : A) : Run A := (Returned a, []).
Definition throw {A} (e : Thrown) : Run A := (Threw e, []).

Definition bind {A B} (m : Run A) (k : A -> Run B) : Run B :=
  match m with
  | (Returned a, sent) => let (o, sent') := k a in (o, (sent ++ sent')%list)
  | (Threw e, sent) => (Threw e, sent)
  | (Pending, sent) => (Pending, sent)
  end.

(** [try { m } catch (error) { h error }] *)
Definition try_catch {A} (m : Run A) (h : Thrown -> Run A) : Run A :=
  match m with
  | (Threw e, sent) => let (o, sent') := h e in (o, (sent ++ sent')%list)
  | _ => m
  end.

(** The result type [T] of a client call: [{} as T] or a decoded body. *)
Inductive Payload (T : Type) : Type :=
| EmptyObject
| Value (v : T).
Arguments EmptyObject {T}.
Arguments Value {T} v.

(** The three headers both clients always send. *)
Definition base_headers (apiKey : string) : gmap string string :=
  <["Content-Type" := "application/json"]>
  (<["Accept" := "application/json"]>
  (<["Authorization" := "Bearer " ++ apiKey]> ∅)).

End Net.

Notation "'let*' x ':=' m 'in' k" := (Net.bind m (fun x => k))
  (at level 10, x name, m at level 100, k at level 200).

(** ** [src/api.ts] *)
Module Api.
Import Js Net.

Definition DEFAULT_BASE_URL : string := "https://gateway.latitude.so".
Definition API_VERSION : string := "v3".
Definition API_TIMEOUT_MS : Z := 60000.

Definition nl : string := String (ascii_of_nat 10) EmptyString.

Record LatitudeConfig : Type := mkLatitudeConfig {
  apiKey : string;
  projectId : string;
  baseUrl : string
}.

Definition getConfig (p : Config.Process) : Outcome LatitudeConfig :=
  let apiKey := Config.get p "LATITUDE_API_KEY" None in
  let projectId := Config.get p "LATITUDE_PROJECT_ID" None in
  let baseUrl := or_str (Config.get p "LATITUDE_BASE_URL" None) DEFAULT_BASE_URL in
  match apiKey with
  | None =>
      Threw (JsError false "Error"
        ("❌ **LATITUDE_API_KEY is required**" ++ nl ++ nl ++
         "Set it in your environment:" ++ nl ++ "```" ++ nl ++
         "export LATITUDE_API_KEY=your-api-key" ++ nl ++ "```") None)
  | Some apiKey =>
      match projectId with
      | None =>
          Threw (JsError false "Error"
            ("❌ **LATITUDE_PROJECT_ID is required**" ++ nl ++ nl ++
             "Set it in your environment:" ++ nl ++ "```" ++ nl ++
             "export LATITUDE_PROJECT_ID=your-project-id" ++ nl ++ "```") None)
      | Some projectId => Returned (mkLatitudeConfig apiKey projectId baseUrl)
      end
  end.

(** [opt_body] is [JSON.stringify(options.body)] for a truthy
    [options.body], and [None] when the body is absent or falsy. *)
Record RequestOptions : Type := mkRequestOptions {
  opt_method : option string;
  opt_body : option string;
  opt_timeout : option Z
}.

Definition noOptions : RequestOptions := mkRequestOptions None None None.

(** The delay Node's [setTimeout] really arms: a delay below 1 or above
    2147483647 is replaced by 1. *)
Definition timer_delay (ms : Z) : Z :=
  if (ms <? 1) || (2147483647 <? ms) then 1 else ms.

(** [`${ms / 1000}`] for an integral number of milliseconds. *)
Definition seconds_text (ms : Z) : string :=
  let a := Z.abs ms in
  let r := a mod 1000 in
  let d1 := r / 100 in
  let d2 := (r / 10) mod 10 in
  let d3 := r mod 10 in
  (if ms <? 0 then "-" else EmptyString) ++ pretty (a / 1000) ++
  (if r =? 0 then EmptyString
   else if negb (d3 =? 0) then "." ++ pretty d1 ++ pretty d2 ++ pretty d3
   else if negb (d2 =? 0) then "." ++ pretty d1 ++ pretty d2
   else "." ++ pretty d1).

(** [error instanceof Error && error.name === 'AbortError'] *)
Definition is_abort (e : Thrown) : bool :=
  match e with
  | JsError _ name _ _ => String.eqb name "AbortError"
  | _ => false
  end.

(** The rejection [fetch] produces when its signal is aborted. *)
Definition abortError : Thrown :=
  JsError false "AbortError" "This operation was aborted" None.

(** The [catch (error)] block of [request]. *)
Definition on_catch (options : RequestOptions) (error : Thrown) : Thrown :=
  match error with
  | LatitudeApiError _ _ => error
  | _ =>
      if is_abort error then
        LatitudeApiError
          (ErrorUtil.mkLatitudeError "TimeoutError" "TIMEOUT"
             ("Request timed out after " ++
              seconds_text (or_num (opt_timeout options) API_TIMEOUT_MS) ++ "s"))
          408
      else
        LatitudeApiError
          (ErrorUtil.mkLatitudeError "NetworkError" "NETWORK_ERROR"
             (match error with
              | NonError _ => "Network error"
              | _ => message_of error
              end))
          0
  end.

Section Request.
Context {T : Type}.
(** [JSON.parse(errorText)] read as a [LatitudeError]; [None] when it throws. *)
Variable parse_error : string -> option ErrorUtil.LatitudeError.
(** [response.json()]: the decoded value, or the [SyntaxError] message. *)
Variable parse_json : string -> T + string.

(** The [try] block of [request] once [fetch] has resolved and the
    timer has been cleared. *)
Definition on_response (response : Response) : Outcome (Payload T) :=
  if negb (ok response) then
    match body response with
    | BodyStalls => Pending
    | BodyText errorText =>
        let errorData :=
          match parse_error errorText with
          | Some d => d
          | None =>
              ErrorUtil.mkLatitudeError "HTTPError"
                ("HTTP_" ++ pretty (status response))
                (or_str (Some errorText) ("HTTP " ++ pretty (status response)))
          end in
        Threw (LatitudeApiError errorData (status response))
    end
  else if match content_length response with
          | Some l => String.eqb l "0"
          | None => false
          end || (status response =? 204) then
    Returned EmptyObject
  else
    match body response with
    | BodyStalls => Pending
    | BodyText text =>
        match parse_json text with
        | inl v => Returned (Value v)
        | inr syntax => Threw (JsError false "SyntaxError" syntax None)
        end
    end.

Definition request (p : Config.Process) (net : Network)
    (endpoint : string) (options : RequestOptions) : Run (Payload T) :=
  match getConfig p with
  | Threw e => throw e
  | Pending => (Pending, [])
  | Returned cfg =>
      let url := baseUrl cfg ++ "/api/" ++ API_VERSION ++ endpoint in
      let method := or_str (opt_method options) "GET" in
      let deadline := timer_delay (or_num (opt_timeout options) API_TIMEOUT_MS) in
      let req := mkHttpRequest url method (base_headers (apiKey cfg))
                   (opt_body options) true in
      let settled : Outcome (Payload T) :=
        match net req with
        | Resolves t response =>
            if t <=? deadline then on_response response
            else Threw abortError
        | Rejects t error =>
            if t <=? deadline then Threw error else Threw abortError
        | NeverSettles => Threw abortError
        end in
      (match settled with
       | Threw error => Threw (on_catch options error)
       | o => o
       end, [req])
  end.
End Request.

Record Document : Type := mkDocument {
  versionUuid : string;
  uuid : string;
  path : string;
  content : string
}.

Definition getProjectId (p : Config.Process) : Run string :=
  match getConfig p with
  | Returned cfg => ret (projectId cfg)
  | Threw e => throw e
  | Pending => (Pending, [])
  end.

Section Operations.
Variable parse_error : string -> option ErrorUtil.LatitudeError.
Variable parse_documents : string -> list Document + string.

Definition listDocuments (p : Config.Process) (net : Network)
    (versionUuid : string) : Run (Payload (list Document)) :=
  let* projectId := getProjectId p in
  request parse_error parse_documents p net
    ("/projects/" ++ projectId ++ "/versions/" ++ versionUuid ++ "/documents")
    noOptions.

(** [docs.map((doc) => doc.path)]; on [{}] there is no [map] to call. *)
Definition map_paths (docs : Payload (list Document)) : Run (list string) :=
  match docs with
  | Value l => ret (map path l)
  | EmptyObject =>
      throw (JsError true "TypeError" "docs.map is not a function" None)
  end.

Definition getPromptNames (p : Config.Process) (net : Network)
    : Run (list string) :=
  try_catch
    (let* docs := listDocuments p net "live" in map_paths docs)
    (fun _ => ret []).
End Operations.

(** [DocumentChange] and [DeployResult] of [types.ts], by the fields
    [deployToLive] reads and writes. *)
Record DocumentChange : Type := mkDocumentChange {
  dc_path : string;
  dc_content : string;
  dc_status : string
}.

Record DeployResult : Type := mkDeployResult {
  version_uuid : string;            (* version.uuid *)
  documentsProcessed : nat;
  added : list string;
  modified : list string;
  deleted : list string
}.

Section Documents.
Variable parse_error : string -> option ErrorUtil.LatitudeError.
Variable parse_document : string -> Document + string.
Variable parse_documents : string -> list Document + string.
(** [response.json()] where the caller discards the value. *)
Variable parse_any : string -> unit + string.
(** [JSON.stringify({ path, prompt: content, force })] *)
Variable stringify_document : string -> string -> bool -> string.

Definition getDocument (p : Config.Process) (net : Network)
    (path versionUuid : string) : Run (Payload Document) :=
  let* projectId := getProjectId p in
  let normalizedPath := strip_leading_slash path in
  request parse_error parse_document p net
    ("/projects/" ++ projectId ++ "/versions/" ++ versionUuid ++
     "/documents/" ++ normalizedPath)
    noOptions.

Definition createOrUpdateDocument (p : Config.Process) (net : Network)
    (versionUuid path content : string) (force : bool) : Run (Payload Document) :=
  let* projectId := getProjectId p in
  request parse_error parse_document p net
    ("/projects/" ++ projectId ++ "/versions/" ++ versionUuid ++
     "/documents/create-or-update")
    (mkRequestOptions (Some "POST")
       (Some (stringify_document path content force)) None).

Definition deleteDocument (p : Config.Process) (net : Network)
    (versionUuid path : string) : Run unit :=
  let* projectId := getProjectId p in
  let normalizedPath := strip_leading_slash path in
  let* _ := request parse_error parse_any p net
    ("/projects/" ++ projectId ++ "/versions/" ++ versionUuid ++
     "/documents/" ++ normalizedPath)
    (mkRequestOptions (Some "DELETE") None None) in
  ret tt.

(** The [for (const change of changes)] loop of [deployToLive], with the
    three arrays it pushes to. *)
Fixpoint deploy_changes (p : Config.Process) (net : Network)
    (changes : list DocumentChange) (added modified deleted : list string)
    : Run (list string * list string * list string) :=
  match changes with
  | [] => ret (added, modified, deleted)
  | change :: rest =>
      if String.eqb (dc_status change) "deleted" then
        let* deleted' :=
          try_catch
            (let* _ := deleteDocument p net "live" (dc_path change) in
             ret (deleted ++ [dc_path change])%list)
            (fun _ => ret deleted) in
        deploy_changes p net rest added modified deleted'
      else
        let* _ := createOrUpdateDocument p net "live" (dc_path change)
                    (dc_content change) true in
        if String.eqb (dc_status change) "added"
        then deploy_changes p net rest (added ++ [dc_path change])%list modified deleted
        else deploy_changes p net rest added (modified ++ [dc_path change])%list deleted
  end.

Definition deployToLive (p : Config.Process) (net : Network)
    (changes : list DocumentChange) : Run DeployResult :=
  let* pushed := deploy_changes p net changes [] [] [] in
  let* docs := listDocuments parse_error parse_documents p net "live" in
  let liveVersionUuid :=
    match docs with
    | Value (doc :: _) => versionUuid doc
    | _ => "live"
    end in
  ret (mkDeployResult liveVersionUuid (length changes)
         pushed.1.1 pushed.1.2 pushed.2).
End Documents.

End Api.

(** ** [src/services/vendor.latitude.service.ts] *)
Module Vendor.
Import Js Net ErrorUtil.

(** Modelled from the spec: the [RequestOptions] type of
    [types/latitude.types.ts], which is not among the sources; the data
    model gives it as [{ method, body?, headers?, timeout? }]. *)
Record RequestOptions : Type := mkRequestOptions {
  opt_method : option string;
  opt_body : option string;
  opt_headers : gmap string string;
  opt_timeout : option Z
}.

Definition noOptions : RequestOptions := mkRequestOptions None None ∅ None.

Section Service.
(** [utils/constants.util.ts] is not among the sources; its two
    constants are taken as given. *)
Variable LATITUDE_BASE_URL : string.
Variable LATITUDE_API_VERSION : string.

Record Credentials : Type := mkCredentials {
  apiKey : string;
  baseUrl : string
}.

Definition getLatitudeCredentials (p : Config.Process) : Outcome Credentials :=
  let apiKey := Config.get p "LATITUDE_API_KEY" None in
  let baseUrl := or_str (Config.get p "LATITUDE_BASE_URL" None) LATITUDE_BASE_URL in
  match apiKey with
  | None =>
      Threw (McpErr (createAuthInvalidError
        "LATITUDE_API_KEY is required. Set it in your environment or .env file."))
  | Some apiKey => Returned (mkCredentials apiKey baseUrl)
  end.

(** The [catch (error)] block of [fetchLatitudeApi]. *)
Definition on_catch (error : Thrown) : Thrown :=
  match error with
  | McpErr _ => error
  | JsError true name msg _ =>
      McpErr (createApiError ("Network error during API call: " ++ msg)
                None (Some (OrigError name msg)))
  | JsError false name msg _ =>
      McpErr (createUnexpectedError ("Unexpected error during API call: " ++ msg)
                (Some (OrigError name msg)))
  | LatitudeApiError d _ =>
      McpErr (createUnexpectedError
                ("Unexpected error during API call: " ++ le_message d)
                (Some (OrigData d)))
  | NonError text =>
      McpErr (createUnexpectedError ("Unexpected error during API call: " ++ text)
                (Some (OrigText text)))
  end.

Section Fetch.
Context {T : Type}.
(** [JSON.parse] followed by [LatitudeErrorSchema.parse]; [None]
    when either throws. *)
Variable parse_latitude_error : string -> option LatitudeError.
(** [response.json()]: the decoded value, or the [SyntaxError] message. *)
Variable parse_json : string -> T + string.

(** The [if (!response.ok)] branch: the error thrown for a status. *)
Definition http_error (status : Z) (errorText : string) : McpError :=
  let errorData := parse_latitude_error errorText in
  let msg := option_map le_message errorData in
  let orig := match errorData with
              | Some d => OrigData d
              | None => OrigText errorText
              end in
  if status =? 401 then
    createAuthInvalidError
      (or_str msg "Authentication failed. Check your LATITUDE_API_KEY.")
  else if status =? 403 then
    createAuthInvalidError
      (or_str msg "Permission denied for the requested resource.")
  else if status =? 404 then
    createApiError (or_str msg "Resource not found.") (Some status) (Some orig)
  else if status =? 422 then
    createApiError (or_str msg "Validation error.") (Some status) (Some orig)
  else
    createApiError
      (or_str msg ("API request failed with status " ++ pretty status))
      (Some status) (Some orig).

Definition on_response (response : Response) : Outcome (Payload T) :=
  if negb (ok response) then
    match body response with
    | BodyStalls => Pending
    | BodyText errorText =>
        Threw (McpErr (http_error (status response) errorText))
    end
  else if match content_length response with
          | Some l => String.eqb l "0"
          | None => false
          end || (status response =? 204) then
    Returned EmptyObject
  else
    match body response with
    | BodyStalls => Pending
    | BodyText text =>
        match parse_json text with
        | inl v => Returned (Value v)
        | inr syntax => Threw (JsError false "SyntaxError" syntax None)
        end
    end.

Definition fetchLatitudeApi (p : Config.Process) (net : Network)
    (endpoint : string) (options : RequestOptions) : Run (Payload T) :=
  match getLatitudeCredentials p with
  | Threw e => throw e
  | Pending => (Pending, [])
  | Returned cred =>
      let url := baseUrl cred ++ "/api/" ++ LATITUDE_API_VERSION ++ endpoint in
      let req := mkHttpRequest url (or_str (opt_method options) "GET")
                   (opt_headers options ∪ base_headers (apiKey cred))
                   (opt_body options) false in
      let settled : Outcome (Payload T) :=
        match net req with
        | Resolves _ response => on_response response
        | Rejects _ error => Threw error
        | NeverSettles => Pending
        end in
      (match settled with
       | Threw error => Threw (on_catch error)
       | o => o
       end, [req])
  end.

(** [Schema.parse(data)] of a domain operation; the schemas live in
    [types/latitude.types.ts] and are taken as given. *)
Definition schema_parse {U : Type} (schema : Payload T -> U + string)
    (data : Payload T) : Run U :=
  match schema data with
  | inl u => ret u
  | inr issues => throw (JsError false "ZodError" issues None)
  end.

Definition listProjects {U : Type} (ProjectListSchema : Payload T -> U + string)
    (p : Config.Process) (net : Network) : Run U :=
  let* data := fetchLatitudeApi p net "/projects" noOptions in
  schema_parse ProjectListSchema data.

Definition stopConversation (p : Config.Process) (net : Network)
    (conversationUuid : string) : Run (Payload T) :=
  fetchLatitudeApi p net ("/conversations/" ++ conversationUuid ++ "/stop")
    (mkRequestOptions (Some "POST") None ∅ None).

Definition getDocument {U : Type} (DocumentSchema : Payload T -> U + string)
    (p : Config.Process) (net : Network)
    (projectId versionUuid path : string) : Run U :=
  let normalizedPath := strip_leading_slash path in
  let* data := fetchLatitudeApi p net
    ("/projects/" ++ projectId ++ "/versions/" ++ versionUuid ++
     "/documents/" ++ normalizedPath) noOptions in
  schema_parse DocumentSchema data.
End Fetch.
End Service.

End Vendor.

(** ** [controllers/latitude.controller.ts] and its error handler *)
Module Controller.
Import Js Net ErrorUtil ErrorHandler ErrorFormat.

(** [buildErrorContext]; [additionalInfo] only feeds the log and is not kept. *)
Definition buildErrorContext (entityType operation source : string)
    (entityId : option EntityId) : ErrorContext :=
  mkErrorContext (Some source) (Some entityType)
    (match entityId with
     | Some (IdString s) => if truthy s then entityId else None
     | other => other
     end)
    (Some operation).

(** [handleControllerError]: the [McpError] it throws. *)
Definition handleControllerError (error : Thrown) (context : ErrorContext) : Mcp :=
  let errorMessage := message_of error in
  let statusCode := status_of error in
  let detected := detectErrorType error context in
  let finalStatusCode := or_num statusCode (ErrorHandler.statusCode detected) in
  let message :=
    if ErrorCode_eqb (code detected) VALIDATION_ERROR
    then errorMessage
    else createUserFriendlyErrorMessage (code detected) context (Some errorMessage) in
  mkMcp message API_ERROR (Some finalStatusCode) (value_of_thrown error).

(** The fate of a controller call.  [Failed] carries what
    [handleControllerError] threw; [Escaped] is a rejection that left the
    controller without passing through it. *)
Inductive Call (A : Type) : Type :=
| Done (a : A)
| Failed (e : Mcp)
| Escaped (e : Thrown)
| Hangs.
Arguments Done {A} a.
Arguments Failed {A} e.
Arguments Escaped {A} e.
Arguments Hangs {A}.

(** [try { ... await service ... } catch (error) { throw
    handleControllerError(error, context) }], for the awaited part. *)
Definition guarded {A : Type} (context : ErrorContext) (body : Run A)
    : Call A * list HttpRequest :=
  match body with
  | (Returned a, sent) => (Done a, sent)
  | (Threw error, sent) => (Failed (handleControllerError error context), sent)
  | (Pending, sent) => (Hangs, sent)
  end.

(** [return formatOutput(data, options)]: the promise is returned from
    inside the [try] without [await], so its rejection is not seen by
    the [catch]. *)
Definition then_format {U : Type} (formatOutput : U -> Outcome string)
    (call : Call U * list HttpRequest) : Call string * list HttpRequest :=
  match call with
  | (Done data, sent) =>
      (match formatOutput data with
       | Returned content => Done content
       | Threw e => Escaped e
       | Pending => Hangs
       end, sent)
  | (Failed e, sent) => (Failed e, sent)
  | (Escaped e, sent) => (Escaped e, sent)
  | (Hangs, sent) => (Hangs, sent)
  end.

Section Operations.
Variable LATITUDE_BASE_URL : string.
Variable LATITUDE_API_VERSION : string.
Context {T U : Type}.
Variable parse_latitude_error : string -> option LatitudeError.
Variable parse_json : string -> T + string.
Variable ProjectListSchema : Payload T -> U + string.
Variable DocumentSchema : Payload T -> U + string.
(** [formatOutput(data, options)]: the jq filter and the TOON/JSON encoder
    of [utils/jq.util.ts], which may reject. *)
Variable formatOutput : U -> Outcome string.

Definition listProjects (p : Config.Process) (net : Network)
    : Call string * list HttpRequest :=
  then_format formatOutput
    (guarded
       (buildErrorContext "Latitude" "listProjects"
          "controllers/latitude.controller.ts@listProjects"
          (Some (IdString "projects")))
       (Vendor.listProjects LATITUDE_BASE_URL LATITUDE_API_VERSION
          parse_latitude_error parse_json ProjectListSchema p net)).


(** The read callback of the [latitude-projects] resource
    ([resources/latitude.resource.ts]): it awaits the controller inside
    its own [try], so it returns a [contents] array for every settled
    call, or never settles. *)
Definition projectsResource (p : Config.Process) (net : Network) (uri : string)
    : option (list ResourceContent) :=
  match (listProjects p net).1 with
  | Done content =>
      Some [mkResourceContent uri content "application/json" None]
  | Failed e => Some (formatErrorForMcpResource (value_of_mcp e) uri)
  | Escaped e => Some (formatErrorForMcpResource (value_of_thrown e) uri)
  | Hangs => None
  end.
End Operations.

End Controller.

(** ** The error taxonomy and the retry policy of the design *)
Module Retry.

(** Modelled from the spec: the kinds of a [ClassifiedError] as the
    data model lists them; the sources have [ErrorCode] and [ErrorType]
    instead. *)
Inductive Kind : Type :=
| NetworkError
| TimeoutError
| AuthMissing
| AuthInvalid
| NotFound
| ValidationError
| RateLimited
| ServerError
| UnexpectedError.

Definition Kind_eqb (a b : Kind) : bool :=
  match a, b with
  | NetworkError, NetworkError | TimeoutError, TimeoutError
  | AuthMissing, AuthMissing | AuthInvalid, AuthInvalid
  | NotFound, NotFound | ValidationError, ValidationError
  | RateLimited, RateLimited | ServerError, ServerError
  | UnexpectedError, UnexpectedError => true
  | _, _ => false
  end.

(** Modelled from the spec: the status table of the request executor,
    "401/403 AuthInvalid; 404 NotFound; 422/400 ValidationError; 429
    RateLimited; 502/503/504 ServerError; anything else UnexpectedError". *)
Definition spec_kind_of_status (status : Z) : Kind :=
  if (status =? 401) || (status =? 403) then AuthInvalid
  else if status =? 404 then NotFound
  else if (status =? 400) || (status =? 422) then ValidationError
  else if status =? 429 then RateLimited
  else if (status =? 502) || (status =? 503) || (status =? 504) then ServerError
  else UnexpectedError.

(** The kind each [ErrorCode] of the classifier stands for; the pagination
    cursor code is a 400-class validation failure. *)
Definition kind_of_code (c : ErrorHandler.ErrorCode) : Kind :=
  match c with
  | ErrorHandler.NOT_FOUND => NotFound
  | ErrorHandler.INVALID_CURSOR => ValidationError
  | ErrorHandler.ACCESS_DENIED => AuthInvalid
  | ErrorHandler.VALIDATION_ERROR => ValidationError
  | ErrorHandler.UNEXPECTED_ERROR => UnexpectedError
  | ErrorHandler.NETWORK_ERROR => NetworkError
  | ErrorHandler.RATE_LIMIT_ERROR => RateLimited
  end.

(** Modelled from the spec: [ClassifiedError], with the upstream
    retry-after directive (milliseconds) when the response carried one. *)
Record ClassifiedError : Type := mkClassifiedError {
  kind : Kind;
  httpStatus : option Z;
  message : string;
  retryAfter : option Z
}.

(** Modelled from the spec: the policy record of [withRetry]; the jitter
    fraction is the ratio [jitterNum / jitterDen]. *)
Record Policy : Type := mkPolicy {
  retryableKinds : list Kind;
  maxAttempts : nat;
  baseDelay : Z;
  maxDelay : Z;
  jitterNum : Z;
  jitterDen : Z
}.

(** Modelled from the spec: [{ retryableKinds: {RateLimited, ServerError,
    TimeoutError}, maxAttempts: 3, baseDelay: 200ms, maxDelay: 8000ms,
    jitterFraction: 0.25 }]. *)
Definition defaultPolicy : Policy :=
  mkPolicy [RateLimited; ServerError; TimeoutError] 3 200 8000 1 4.

Definition retryable (policy : Policy) (k : Kind) : bool :=
  existsb (Kind_eqb k) (retryableKinds policy).

(** Modelled from the spec: [delay = min(baseDelay * 2^(attempt-1), maxDelay)]. *)
Definition backoff (policy : Policy) (attempt : nat) : Z :=
  Z.min (baseDelay policy * 2 ^ (Z.of_nat attempt - 1)) (maxDelay policy).

(** Modelled from the spec: a jitter of [±jitterFraction * delay]; the
    random draw [u] is a per-mille value clamped to [-1000, 1000]. *)
Definition jitter (policy : Policy) (delay u : Z) : Z :=
  let u' := Z.max (-1000) (Z.min 1000 u) in
  (delay * jitterNum policy * u') / (jitterDen policy * 1000).

(** Modelled from the spec: an explicit retry-after directive takes
    precedence over the computed backoff. *)
Definition delay_before_retry (policy : Policy) (e : ClassifiedError)
    (attempt : nat) (u : Z) : Z :=
  match retryAfter e with
  | Some ms => ms
  | None => let d := backoff policy attempt in d + jitter policy d u
  end.

Inductive Result (V : Type) : Type :=
| Success (v : V)
| Failure (e : ClassifiedError).
Arguments Success {V} v.
Arguments Failure {V} e.

(** What a run of [withRetry] did: its result, how many times the
    operation was attempted, and the delays slept between attempts. *)
Record RunLog (V : Type) : Type := mkRunLog {
  result : Result V;
  attempts : nat;
  slept : list Z
}.
Arguments mkRunLog {V} result attempts slept.
Arguments result {V} r.
Arguments attempts {V} r.
Arguments slept {V} r.

Section WithRetry.
Context {V : Type}.
Variable policy : Policy.
(** The operation: its outcome at the 1-based attempt number. *)
Variable operation : nat -> Result V.
(** The random source: the draw used after the given attempt. *)
Variable random : nat -> Z.

(** Modelled from the spec: the loop of [withRetry].  On a retryable
    failure with attempts left it sleeps and tries again; a
    non-retryable failure, or a failure at the last attempt, is handed
    back as it is.  [fuel] bounds the recursion. *)
Fixpoint attempt_loop (fuel : nat) (attempt : nat) (sleeps : list Z)
    : RunLog V :=
  match operation attempt with
  | Success v => mkRunLog (Success v) attempt sleeps
  | Failure e =>
      if retryable policy (kind e) && Nat.ltb attempt (maxAttempts policy) then
        match fuel with
        | O => mkRunLog (Failure e) attempt sleeps
        | S fuel' =>
            attempt_loop fuel' (S attempt)
              (sleeps ++ [delay_before_retry policy e attempt (random attempt)])%list
        end
      else mkRunLog (Failure e) attempt sleeps
  end.

(** Modelled from the spec: [withRetry(operation, policy)], which the
    sources do not implement. *)
Definition withRetry : RunLog V :=
  attempt_loop (maxAttempts policy) 1%nat [].
End WithRetry.

End Retry.

(** ** Statement-level definitions *)
Module Claims.
Import ErrorHandler.

(** No message test of the classifier fires on [m]. *)
Definition no_phrase (m : string) : bool :=
  negb (network_phrase m || rate_limit_phrase m || not_found_phrase m ||
        access_phrase m || cursor_phrase m || validation_phrase m).

(** The status of a failed HTTP response: a status code outside 2xx. *)
Definition failed_status (s : Z) : bool :=
  (100 <=? s) && (s <=? 599) && negb ((200 <=? s) && (s <=? 299)).

(** The status table read literally, with the kinds of the design. *)
Definition status_table_as_stated : Prop :=
  forall (e : Thrown) (ctx : ErrorContext) (s : Z),
    no_phrase (message_of e) = true ->
    status_of e = Some s ->
    failed_status s = true ->
    Retry.kind_of_code (code (detectErrorType e ctx)) = Retry.spec_kind_of_status s.

(** The statuses the taxonomy of the design maps to a kind of their own. *)
Definition taxonomy_status (s : Z) : bool :=
  (s =? 400) || (s =? 401) || (s =? 403) || (s =? 404) || (s =? 422) ||
  (s =? 429) || (s =? 502) || (s =? 503) || (s =? 504).

(** "Status code takes precedence" read literally. *)
Definition status_precedence_as_stated : Prop :=
  forall (e : Thrown) (ctx : ErrorContext) (s : Z),
    status_of e = Some s ->
    taxonomy_status s = true ->
    Retry.kind_of_code (code (detectErrorType e ctx)) = Retry.spec_kind_of_status s.

(** The code the classifier gives to a status when only the status speaks. *)
Definition code_for_status (s : Z) : ErrorCode :=
  if s =? 429 then RATE_LIMIT_ERROR
  else if s =? 404 then NOT_FOUND
  else if (s =? 401) || (s =? 403) then ACCESS_DENIED
  else if (s =? 400) || (s =? 422) then VALIDATION_ERROR
  else UNEXPECTED_ERROR.

(** A message test that the classifier runs before it looks at status [s]
    in the status's own category fires on [m]. *)
Definition earlier_phrase (s : Z) (m : string) : bool :=
  if s =? 429 then network_phrase m
  else if s =? 404 then network_phrase m || rate_limit_phrase m
  else if (s =? 401) || (s =? 403) then
    network_phrase m || rate_limit_phrase m || not_found_phrase m
  else if (s =? 400) || (s =? 422) then
    network_phrase m || rate_limit_phrase m || not_found_phrase m ||
    access_phrase m || cursor_phrase m
  else
    network_phrase m || rate_limit_phrase m || not_found_phrase m ||
    access_phrase m || cursor_phrase m || validation_phrase m.

(** The value the first entry for [key] gives, if any. *)
Fixpoint assoc (key : string) (entries : list (string * string)) : option string :=
  match entries with
  | [] => None
  | (k, v) :: rest => if String.eqb k key then Some v else assoc key rest
  end.

(** The entries the global config file contributes for a loader. *)
Definition global_entries (self : Config.ConfigLoader) (files : Config.Files)
    : list (string * string) :=
  match Config.global_config files with
  | Config.GlobalParsed config =>
      let full := Config.packageName self in
      let unscoped := Js.or_str (nth_error (Config.split_slash full) 1) full in
      match Config.find_section config ["latitude"; full; unscoped] with
      | Some (_, environments) => environments
      | None => []
      end
  | _ => []
  end.

(** The entries the [.env] file contributes. *)
Definition dotenv_entries (files : Config.Files) : list (string * string) :=
  match Config.dotenv_file files with
  | Some parsed => parsed
  | None => []
  end.

(** A [.env] file and a global config file that both set the base URL. *)
Definition both_files : Config.Files :=
  Config.mkFiles
    (Some [("LATITUDE_BASE_URL", "https://dotenv.example")])
    (Config.GlobalParsed
       {[ "latitude" := Some [("LATITUDE_BASE_URL", "https://global.example")] ]}).

Definition fresh_process : Config.Process := Config.mkProcess ∅ [].

(** A process with the API key and the project id set. *)
Definition configured_process : Config.Process :=
  Config.mkProcess
    {[ "LATITUDE_API_KEY" := "lat-key-1"; "LATITUDE_PROJECT_ID" := "42" ]} [].

(** A process whose API key is the empty string and nothing else. *)
Definition empty_key_process : Config.Process :=
  Config.mkProcess {[ "LATITUDE_API_KEY" := EmptyString ]} [].

(** An upstream that never answers. *)
Definition silent_network : Net.Network := fun _ => Net.NeverSettles.

(** An upstream that answers every request at [t] ms with [response]. *)
Definition answering (t : Z) (response : Net.Response) : Net.Network :=
  fun _ => Net.Resolves t response.

(** Decoders that reject every text. *)
Definition no_error_payload : string -> option ErrorUtil.LatitudeError :=
  fun _ => None.

Definition rejecting_json {T : Type} : string -> T + string :=
  fun _ => inr "Unexpected end of JSON input".

(** A 204 whose body stream never completes. *)
Definition stalled_204 : Net.Response := Net.mkResponse 204 None Net.BodyStalls.

(** A 200 whose headers have arrived and whose body stream never completes. *)
Definition stalled_200 : Net.Response := Net.mkResponse 200 None Net.BodyStalls.

(** Two documents and a decoder that yields them for any text. *)
Definition two_documents : list Api.Document :=
  [Api.mkDocument "v1" "d1" "onboarding/welcome" "Hello";
   Api.mkDocument "v1" "d2" "support/triage" "Sort"].

Definition two_documents_json : string -> list Api.Document + string :=
  fun _ => inl two_documents.

(** An operation that answers 503 twice and then succeeds. *)
Definition flaky_operation (attempt : nat) : Retry.Result string :=
  if Nat.ltb attempt 3
  then Retry.Failure
         (Retry.mkClassifiedError Retry.ServerError (Some 503)
            "API request failed with status 503" None)
  else Retry.Success "ok".

End Claims.

(** ** Sample values for the further properties *)
Module Samples.
Import ErrorFormat.

(** [root] wrapped in one [McpError] per layer, outermost first. *)
Fixpoint wrap (layers : list (string * ErrorUtil.ErrorType * option Z))
    (root : JsValue) : JsValue :=
  match layers with
  | [] => root
  | (msg, type, status) :: rest => JsMcp msg type status (wrap rest root)
  end.

(** [current instanceof Error && 'originalError' in current &&
    current.originalError]: the loop of [getDeepOriginalError] can step
    from this value. *)
Definition can_unwrap (v : JsValue) : bool :=
  match v with
  | JsMcp _ _ _ originalError => is_truthy originalError
  | _ => false
  end.

(** The 404 payload of the upstream API. *)
Definition not_found_payload : ErrorUtil.LatitudeError :=
  ErrorUtil.mkLatitudeError "NotFoundError" "NotFoundError"
    "Document secret/plan is missing in commit 91".

Definition payload_decoder : string -> option ErrorUtil.LatitudeError :=
  fun _ => Some not_found_payload.

(** A process that runs the loader with [DEBUG] set to ["True"]. *)
Definition debug_process : Config.Process :=
  Config.mkProcess {[ "DEBUG" := "True"; "LATITUDE_API_KEY" := EmptyString ]} [].

(** Three changes: one of each status. *)
Definition three_changes : list Api.DocumentChange :=
  [Api.mkDocumentChange "a" "A" "added";
   Api.mkDocumentChange "b" "B" "deleted";
   Api.mkDocumentChange "c" "C" "modified"].

(** An upstream that refuses every DELETE with a 404 and accepts
    everything else with an empty 204. *)
Definition no_delete_network : Net.Network :=
  fun req =>
    if String.eqb (Net.method req) "DELETE"
    then Net.Resolves 5 (Net.mkResponse 404 None (Net.BodyText "gone"))
    else Net.Resolves 5 (Net.mkResponse 204 None (Net.BodyText EmptyString)).

(** The paths of the changes with a given fate in [deployToLive]. *)
Definition is_deleted (c : Api.DocumentChange) : bool :=
  String.eqb (Api.dc_status c) "deleted".

Definition is_added (c : Api.DocumentChange) : bool :=
  negb (is_deleted c) && String.eqb (Api.dc_status c) "added".

Definition is_modified (c : Api.DocumentChange) : bool :=
  negb (is_deleted c) && negb (String.eqb (Api.dc_status c) "added").

Definition paths_where (f : Api.DocumentChange -> bool)
    (changes : list Api.DocumentChange) : list string :=
  map Api.dc_path (List.filter f changes).

(** [error instanceof TypeError] *)
Definition is_type_error (e : Thrown) : bool :=
  match e with
  | JsError true _ _ _ => true
  | _ => false
  end.

(** A 500 whose body is plain text. *)
Definition plain_500 : Net.Response :=
  Net.mkResponse 500 (Some "21") (Net.BodyText "Internal Server Error").

(** A 200 whose body is cut short. *)
Definition truncated_200 : Net.Response :=
  Net.mkResponse 200 (Some "2") (Net.BodyText "[{").

(** An upstream whose connection attempt is refused after [t] ms. *)
Definition refusing (t : Z) : Net.Network :=
  fun _ => Net.Rejects t (JsError true "TypeError" "fetch failed" None).

End Samples.

(** * Theorems *)

(** ** The classifier, [detectErrorType] *)
Section Classifier.
Import ErrorHandler Claims.

Example detect_plain_404 :
  detectErrorType (JsError false "Error" "boom" (Some 404)) emptyContext
  = mkDetected NOT_FOUND 404.
Proof. reflexivity. Qed.

Example detect_no_status :
  detectErrorType (NonError "boom") emptyContext = mkDetected UNEXPECTED_ERROR 500.
Proof. reflexivity. Qed.

Example detect_cursor :
  detectErrorType (JsError false "Error" "page token not valid" None) emptyContext
  = mkDetected INVALID_CURSOR 400.
Proof. reflexivity. Qed.

Lemma no_phrase_split (m : string) :
  no_phrase m = true ->
  network_phrase m = false /\ rate_limit_phrase m = false /\
  not_found_phrase m = false /\ access_phrase m = false /\
  cursor_phrase m = false /\ validation_phrase m = false.
Proof.
  unfold no_phrase. intros H. apply negb_true_iff in H.
  rewrite !orb_false_iff in H. tauto.
Qed.

(** C1, as amended.  For a failed HTTP response whose message fires no
    message test, the classifier decides by the status alone: 401 and 403
    give ACCESS_DENIED with the status kept, 404 gives NOT_FOUND, 400 and
    422 give VALIDATION_ERROR with the status kept, 429 gives
    RATE_LIMIT_ERROR, and every other status, 502, 503 and 504 included,
    gives UNEXPECTED_ERROR carrying the original status. *)
Theorem detectErrorType_status_alone (e : Thrown) (ctx : ErrorContext) (s : Z) :
  no_phrase (message_of e) = true ->
  status_of e = Some s ->
  failed_status s = true ->
  let d := detectErrorType e ctx in
  (s = 401 \/ s = 403 -> d = mkDetected ACCESS_DENIED s) /\
  (s = 404 -> d = mkDetected NOT_FOUND 404) /\
  (s = 400 \/ s = 422 -> d = mkDetected VALIDATION_ERROR s) /\
  (s = 429 -> d = mkDetected RATE_LIMIT_ERROR 429) /\
  (s <> 401 -> s <> 403 -> s <> 404 -> s <> 400 -> s <> 422 -> s <> 429 ->
   d = mkDetected UNEXPECTED_ERROR s).
Proof.
  intros Hm Hs Hf d. subst d.
  apply no_phrase_split in Hm.
  destruct Hm as (Hn & Hr & Hnf & Ha & Hc & Hv).
  assert (Hz : s <> 0).
  { unfold failed_status in Hf. apply andb_true_iff in Hf. lia. }
  unfold detectErrorType. rewrite Hs, Hn, Hr, Hnf, Ha, Hc, Hv. cbn [orb].
  unfold Js.num_is, Js.or_num.
  repeat split; intros.
  - destruct H as [-> | ->]; reflexivity.
  - subst s; reflexivity.
  - destruct H as [-> | ->]; reflexivity.
  - subst s; reflexivity.
  - repeat match goal with
           | Hne : s <> ?c |- context [s =? ?c] =>
               rewrite (proj2 (Z.eqb_neq s c) Hne)
           end.
    cbn. reflexivity.
Qed.

Lemma detectErrorType_status_alone_witness :
  ErrorHandler.detectErrorType
    (McpErr (ErrorUtil.createApiError "API request failed with status 503"
               (Some 503) (Some (ErrorUtil.OrigText "upstream unavailable"))))
    ErrorHandler.emptyContext
  = ErrorHandler.mkDetected ErrorHandler.UNEXPECTED_ERROR 503.
Proof.
  refine (proj2 (proj2 (proj2 (proj2
    (detectErrorType_status_alone
       (McpErr (ErrorUtil.createApiError "API request failed with status 503"
                  (Some 503) (Some (ErrorUtil.OrigText "upstream unavailable"))))
       ErrorHandler.emptyContext 503 _ _ _)))) _ _ _ _ _ _);
    first [ reflexivity | lia ].
Defined.

(** C1, as stated, fails: a 502 whose message fires no message test is
    classified UNEXPECTED_ERROR, where the table of the design says
    ServerError. *)
Lemma status_table_as_stated_fails : ~ status_table_as_stated.
Proof.
  intros H.
  specialize (H (McpErr (ErrorUtil.createApiError "API request failed with status 502"
                           (Some 502) (Some (ErrorUtil.OrigText EmptyString))))
                emptyContext 502 eq_refl eq_refl eq_refl).
  vm_compute in H. discriminate H.
Qed.

End Classifier.

(** ** Status against message phrases *)
Section Precedence.
Import ErrorHandler Claims.

Example rate_phrase_beats_401 :
  detectErrorType (JsError false "Error" "too many requests" (Some 401)) emptyContext
  = mkDetected RATE_LIMIT_ERROR 429.
Proof. reflexivity. Qed.

Example not_found_phrase_beats_403 :
  detectErrorType (JsError false "Error" "Project does not exist" (Some 403)) emptyContext
  = mkDetected NOT_FOUND 404.
Proof. reflexivity. Qed.

(** The code of the classifier, by the first test that fires. *)
Lemma detectErrorType_code (e : Thrown) (ctx : ErrorContext) :
  code (detectErrorType e ctx) =
  let m := message_of e in
  let s := status_of e in
  if network_phrase m then NETWORK_ERROR
  else if rate_limit_phrase m || Js.num_is s 429 then RATE_LIMIT_ERROR
  else if not_found_phrase m || Js.num_is s 404 then NOT_FOUND
  else if access_phrase m || Js.num_is s 401 || Js.num_is s 403 then ACCESS_DENIED
  else if cursor_phrase m then INVALID_CURSOR
  else if validation_phrase m || Js.num_is s 400 || Js.num_is s 422
  then VALIDATION_ERROR
  else UNEXPECTED_ERROR.
Proof.
  unfold detectErrorType. cbv zeta.
  repeat match goal with
         | |- context [if ?b then _ else _] => destruct b; cbn [code]; try reflexivity
         end.
Qed.

(** C7, as amended.  For an error that carries a status code, the code
    the classifier returns is the one its status stands for exactly when
    the message fires none of the message tests that come before the
    status's own category in the classifier's fixed order (network, rate
    limit, not found, access, cursor, validation); when one of them
    fires, that earlier category wins over the status. *)
Theorem status_decides_iff_no_earlier_phrase
    (e : Thrown) (ctx : ErrorContext) (s : Z) :
  status_of e = Some s ->
  (code (detectErrorType e ctx) = code_for_status s
   <-> earlier_phrase s (message_of e) = false).
Proof.
  intros Hs. rewrite detectErrorType_code. cbv zeta. rewrite Hs.
  unfold code_for_status, earlier_phrase, Js.num_is.
  destruct (Z.eqb_spec s 429) as [->|H429]; cbn [orb].
  { destruct (network_phrase (message_of e)); cbn; [split; discriminate|].
    rewrite orb_true_r. tauto. }
  destruct (Z.eqb_spec s 404) as [->|H404]; cbn [orb].
  { destruct (network_phrase (message_of e)); cbn; [split; discriminate|].
    destruct (rate_limit_phrase (message_of e)); cbn; [split; discriminate|].
    rewrite orb_true_r. tauto. }
  destruct (Z.eqb_spec s 401) as [->|H401]; cbn [orb].
  { destruct (network_phrase (message_of e)); cbn; [split; discriminate|].
    destruct (rate_limit_phrase (message_of e)); cbn; [split; discriminate|].
    destruct (not_found_phrase (message_of e)); cbn; [split; discriminate|].
    rewrite orb_true_r. tauto. }
  destruct (Z.eqb_spec s 403) as [->|H403]; cbn [orb].
  { destruct (network_phrase (message_of e)); cbn; [split; discriminate|].
    destruct (rate_limit_phrase (message_of e)); cbn; [split; discriminate|].
    destruct (not_found_phrase (message_of e)); cbn; [split; discriminate|].
    rewrite orb_true_r. tauto. }
  destruct (Z.eqb_spec s 400) as [->|H400]; cbn [orb].
  { destruct (network_phrase (message_of e)); cbn; [split; discriminate|].
    destruct (rate_limit_phrase (message_of e)); cbn; [split; discriminate|].
    destruct (not_found_phrase (message_of e)); cbn; [split; discriminate|].
    destruct (access_phrase (message_of e)); cbn; [split; discriminate|].
    destruct (cursor_phrase (message_of e)); cbn; [split; discriminate|].
    rewrite orb_true_r. tauto. }
  destruct (Z.eqb_spec s 422) as [->|H422]; cbn [orb].
  { destruct (network_phrase (message_of e)); cbn; [split; discriminate|].
    destruct (rate_limit_phrase (message_of e)); cbn; [split; discriminate|].
    destruct (not_found_phrase (message_of e)); cbn; [split; discriminate|].
    destruct (access_phrase (message_of e)); cbn; [split; discriminate|].
    destruct (cursor_phrase (message_of e)); cbn; [split; discriminate|].
    rewrite orb_true_r. tauto. }
  destruct (network_phrase (message_of e)); cbn; [split; discriminate|].
  destruct (rate_limit_phrase (message_of e)); cbn; [split; discriminate|].
  destruct (not_found_phrase (message_of e)); cbn; [split; discriminate|].
  destruct (access_phrase (message_of e)); cbn; [split; discriminate|].
  destruct (cursor_phrase (message_of e)); cbn; [split; discriminate|].
  destruct (validation_phrase (message_of e)); cbn; [split; discriminate|].
  tauto.
Qed.

Lemma status_decides_iff_no_earlier_phrase_witness :
  ErrorHandler.code
    (ErrorHandler.detectErrorType
       (LatitudeApiError
          (ErrorUtil.mkLatitudeError "HTTPError" "HTTP_404" "no such access token") 404)
       ErrorHandler.emptyContext)
  = ErrorHandler.NOT_FOUND.
Proof.
  refine (proj2 (status_decides_iff_no_earlier_phrase
    (LatitudeApiError
       (ErrorUtil.mkLatitudeError "HTTPError" "HTTP_404" "no such access token") 404)
    ErrorHandler.emptyContext 404 _) _); reflexivity.
Defined.

(** C7, as stated, fails: a 401 whose message says "too many requests"
    is classified RATE_LIMIT_ERROR, not by its status. *)
Lemma status_precedence_as_stated_fails : ~ status_precedence_as_stated.
Proof.
  intros H.
  specialize (H (JsError false "Error" "too many requests" (Some 401))
                emptyContext 401 eq_refl eq_refl).
  vm_compute in H. discriminate H.
Qed.

End Precedence.

(** ** The renderer, [createUserFriendlyErrorMessage] *)
Section Renderer.
Import ErrorHandler.

Example render_not_found :
  createUserFriendlyErrorMessage NOT_FOUND
    (mkErrorContext None (Some "Prompt") (Some (IdString "intro")) (Some "retrieving"))
    (Some "document 17 does not exist in workspace 4")
  = "Prompt intro not found: intro. Verify the ID is correct and that you have access to this prompt.".
Proof. reflexivity. Qed.

Example render_access_record :
  createUserFriendlyErrorMessage ACCESS_DENIED
    (mkErrorContext None (Some "Version")
       (Some (IdRecord [("project", "12"); ("version", "live")])) None)
    None
  = "Access denied for version 12/live 12/live. Verify your credentials and permissions.".
Proof. reflexivity. Qed.

Example render_network :
  createUserFriendlyErrorMessage NETWORK_ERROR emptyContext (Some "fetch failed")
  = "Network error while connecting to the service. Please check your internet connection and try again. Error details: fetch failed".
Proof. reflexivity. Qed.

Example render_validation :
  createUserFriendlyErrorMessage VALIDATION_ERROR emptyContext (Some "name is required")
  = "name is required Error details: name is required".
Proof. reflexivity. Qed.

(** C8.  For NOT_FOUND and ACCESS_DENIED the rendered message does not
    depend on the original message: any two original messages, present
    or absent, give the same text.  For every other code a supplied
    original message is appended as the trailing detail
    [" Error details: " ++ m]; what precedes it is the rendering without
    an original message, except for VALIDATION_ERROR, whose headline is
    the original message itself. *)
Theorem render_hides_or_appends :
  (forall (c : ErrorCode) (ctx : ErrorContext) (m1 m2 : option string),
      c = NOT_FOUND \/ c = ACCESS_DENIED ->
      createUserFriendlyErrorMessage c ctx m1
      = createUserFriendlyErrorMessage c ctx m2) /\
  (forall (c : ErrorCode) (ctx : ErrorContext) (m : string),
      c <> NOT_FOUND -> c <> ACCESS_DENIED -> m <> EmptyString ->
      exists headline : string,
        createUserFriendlyErrorMessage c ctx (Some m)
        = headline ++ " Error details: " ++ m /\
        (c <> VALIDATION_ERROR ->
         headline = createUserFriendlyErrorMessage c ctx None) /\
        (c = VALIDATION_ERROR -> headline = m)).
Proof.
  split.
  - intros c ctx m1 m2 [-> | ->]; unfold createUserFriendlyErrorMessage;
      cbn [ErrorCode_eqb negb andb];
      destruct m1, m2; rewrite ?andb_false_r; cbn [andb]; reflexivity.
  - intros c ctx m Hnf Had Hm.
    destruct m as [|a m]; [congruence|].
    destruct c; try congruence;
      unfold createUserFriendlyErrorMessage;
      cbn [Js.truthy ErrorCode_eqb negb andb Js.or_str];
      eexists; (split; [reflexivity|]); split; intros; congruence.
Qed.

Lemma render_hides_or_appends_witness :
  ErrorHandler.createUserFriendlyErrorMessage ErrorHandler.NOT_FOUND
    ErrorHandler.emptyContext (Some "row 7 of table secrets is missing")
  = ErrorHandler.createUserFriendlyErrorMessage ErrorHandler.NOT_FOUND
    ErrorHandler.emptyContext None
  /\ exists headline : string,
       ErrorHandler.createUserFriendlyErrorMessage ErrorHandler.RATE_LIMIT_ERROR
         ErrorHandler.emptyContext (Some "429 from gateway")
       = headline ++ " Error details: " ++ "429 from gateway".
Proof.
  split.
  - apply (proj1 render_hides_or_appends). left. reflexivity.
  - destruct (proj2 render_hides_or_appends ErrorHandler.RATE_LIMIT_ERROR
                ErrorHandler.emptyContext "429 from gateway")
      as (h & Hh & _); [discriminate | discriminate | discriminate |].
    exists h. exact Hh.
Defined.

End Renderer.

(** ** The configuration loader *)
Section Loader.
Import Config Claims.

Lemma set_entry_lookup (e : gmap string string) (kv : string * string) (key : string) :
  set_entry false e kv !! key =
  match e !! key with
  | Some v => Some v
  | None => if String.eqb kv.1 key then Some kv.2 else None
  end.
Proof.
  unfold set_entry. destruct kv as [k v]; cbn [fst snd].
  destruct (String.eqb_spec k key) as [->|Hne].
  - destruct (e !! key) eqn:Hk; [assumption|]. apply lookup_insert_eq.
  - destruct (e !! k) eqn:Hk.
    + destruct (e !! key); reflexivity.
    + rewrite lookup_insert_ne by assumption. destruct (e !! key); reflexivity.
Qed.

(** A source that does not overwrite: keys already set keep their value,
    other keys take the value of the first entry that names them. *)
Lemma populate_lookup (entries : list (string * string)) :
  forall (e : gmap string string) (key : string),
    populate false e entries !! key =
    match e !! key with
    | Some v => Some v
    | None => assoc key entries
    end.
Proof.
  unfold populate.
  induction entries as [|[k v] rest IH]; intros e key; cbn [foldl assoc].
  - destruct (e !! key); reflexivity.
  - rewrite IH, set_entry_lookup. cbn [fst snd].
    destruct (e !! key); [reflexivity|].
    destruct (String.eqb k key); reflexivity.
Qed.

Lemma loadFromGlobalConfig_env (self : ConfigLoader) (files : Files) (p : Process) :
  env (loadFromGlobalConfig self files p)
  = populate false (env p) (global_entries self files).
Proof.
  unfold loadFromGlobalConfig, global_entries.
  destruct (global_config files) as [| |config]; try reflexivity.
  cbv zeta.
  destruct (find_section config _) as [[key environments]|]; reflexivity.
Qed.

Lemma loadFromEnvFile_env (files : Files) (p : Process) :
  env (loadFromEnvFile files p) = populate false (env p) (dotenv_entries files).
Proof.
  unfold loadFromEnvFile, dotenv_config, dotenv_entries.
  destruct (dotenv_file files); reflexivity.
Qed.

(** The precedence [load] really implements on a first call: the process
    environment, then the global config file, then the [.env] file. *)
Lemma load_precedence (files : Files) (self : ConfigLoader) (p : Process)
    (key : string) :
  configLoaded self = false ->
  env (load files (self, p)).2 !! key =
  match env p !! key with
  | Some v => Some v
  | None =>
      match assoc key (global_entries self files) with
      | Some v => Some v
      | None => assoc key (dotenv_entries files)
      end
  end.
Proof.
  intros Hl. unfold load. rewrite Hl. cbn [snd].
  rewrite loadFromEnvFile_env, populate_lookup, loadFromGlobalConfig_env,
    populate_lookup.
  destruct (env p !! key); [reflexivity|].
  destruct (assoc key (global_entries self files)); reflexivity.
Qed.

(** The process environment is never overwritten by either file. *)
Lemma load_keeps_process_env (files : Files) (st : ConfigLoader * Process)
    (key value : string) :
  env st.2 !! key = Some value ->
  env (load files st).2 !! key = Some value.
Proof.
  destruct st as [self p]. cbn [snd]. intros Hk.
  destruct (configLoaded self) eqn:Hl.
  - unfold load. rewrite Hl. exact Hk.
  - rewrite load_precedence by assumption. rewrite Hk. reflexivity.
Qed.

(** C5, the code at the failing input.  With an empty process
    environment, a [.env] file and a global config file that both set
    LATITUDE_BASE_URL, [load] leaves the value of the global config
    file in place: the lower-precedence source is applied first and the
    [.env] file, loaded second, does not overwrite it. *)
Theorem load_global_beats_dotenv :
  Config.get (Config.load both_files (Config.config, fresh_process)).2
    "LATITUDE_BASE_URL" None
  = Some "https://global.example".
Proof.
  unfold Config.get.
  rewrite load_precedence by reflexivity.
  reflexivity.
Qed.

(** C6.  [load] is idempotent: whatever the state before the first call
    and whatever the files hold at the second call, the second call
    returns the state of the first unchanged, so every [get] answers the
    same and the log of file-system operations has not grown. *)
Theorem load_idempotent (files files' : Files) (st : ConfigLoader * Process) :
  load files' (load files st) = load files st /\
  fs_log (load files' (load files st)).2 = fs_log (load files st).2 /\
  (forall (key : string) (d : option string),
      get (load files' (load files st)).2 key d = get (load files st).2 key d).
Proof.
  assert (H : load files' (load files st) = load files st).
  { destruct st as [self p]. unfold load.
    destruct (configLoaded self) eqn:Hl.
    - rewrite Hl. reflexivity.
    - cbn [configLoaded]. reflexivity. }
  rewrite H. repeat split.
Qed.

(** A first call does read: two stats/reads of the global file and one of
    the [.env] file. *)
Example load_first_call_reads :
  fs_log (load both_files (Config.config, fresh_process)).2
  = [ExistsGlobalConfig; ReadGlobalConfig; DotenvConfig].
Proof. reflexivity. Qed.

End Loader.

(** ** The two request executors *)
Section Executors.
Import Net Claims.

Example seconds_text_default : Api.seconds_text 60000 = "60".
Proof. reflexivity. Qed.

Example seconds_text_fraction : Api.seconds_text 1500 = "1.5".
Proof. reflexivity. Qed.

(** X16.  [request] of [api.ts]: when [fetch] has not settled by the time the
    abort timer fires, the call throws the 408 TimeoutError. *)
Lemma request_times_out {T : Type}
    (parse_error : string -> option ErrorUtil.LatitudeError)
    (parse_json : string -> T + string)
    (p : Config.Process) (net : Network) (endpoint : string)
    (options : Api.RequestOptions) (cfg : Api.LatitudeConfig) :
  Api.getConfig p = Returned cfg ->
  (forall req, match net req with
               | Resolves t _ | Rejects t _ =>
                   Api.timer_delay (Js.or_num (Api.opt_timeout options) Api.API_TIMEOUT_MS) < t
               | NeverSettles => True
               end) ->
  exists text,
    (Api.request parse_error parse_json p net endpoint options).1
    = Threw (LatitudeApiError
               (ErrorUtil.mkLatitudeError "TimeoutError" "TIMEOUT" text) 408).
Proof.
  intros Hcfg Hlate. unfold Api.request. rewrite Hcfg. cbv zeta.
  match goal with |- context [net ?r] => specialize (Hlate r); destruct (net r) end;
    cbn [fst];
    try (rewrite (proj2 (Z.leb_gt _ _) Hlate));
    eexists; reflexivity.
Qed.

(** [request] of [api.ts]: the timer is cleared once the headers are in,
    so a body that never completes leaves the call pending. *)
Example request_pending_on_stalled_body :
  (Api.request (T := list Api.Document) no_error_payload rejecting_json
     configured_process (answering 10 stalled_200) "/projects/42/versions"
     Api.noOptions).1
  = Pending.
Proof. reflexivity. Qed.

(** C2, the code at the failing input.  [fetchLatitudeApi] attaches no
    abort signal and arms no timer: against an upstream that never
    answers, the call stays pending whatever the endpoint and whatever
    the options, a per-call [timeout] included, and the one request it
    has sent carries no signal. *)
Theorem fetchLatitudeApi_pending_forever {T : Type}
    (base version : string)
    (parse_error : string -> option ErrorUtil.LatitudeError)
    (parse_json : string -> T + string)
    (endpoint : string) (options : Vendor.RequestOptions) :
  let run := Vendor.fetchLatitudeApi base version parse_error parse_json
               configured_process silent_network endpoint options in
  run.1 = Pending /\ map signal run.2 = [false].
Proof. split; reflexivity. Qed.

(** C4, the code at the failing input.  When no API key is resolved,
    no request is sent, but the failure is not of type AUTH_MISSING:
    [fetchLatitudeApi], and with it every domain operation of the
    service, throws an [McpError] of type AUTH_INVALID with status 401,
    and [request] of [api.ts] throws a plain [Error]. *)
Theorem missing_key_fails_as_auth_invalid {T U : Type}
    (base version : string)
    (parse_error : string -> option ErrorUtil.LatitudeError)
    (parse_json : string -> T + string)
    (schema : Payload T -> U + string)
    (p : Config.Process) (net : Network)
    (endpoint : string) (options : Vendor.RequestOptions)
    (api_options : Api.RequestOptions) :
  Config.get p "LATITUDE_API_KEY" None = None ->
  let denied :=
    McpErr (ErrorUtil.mkMcpError
      "LATITUDE_API_KEY is required. Set it in your environment or .env file."
      ErrorUtil.AUTH_INVALID (Some 401) None) in
  Vendor.fetchLatitudeApi base version parse_error parse_json p net endpoint options
    = (Threw denied, []) /\
  Vendor.listProjects base version parse_error parse_json schema p net
    = (Threw denied, []) /\
  Vendor.stopConversation base version parse_error parse_json p net endpoint
    = (Threw denied, []) /\
  (exists text,
     Api.request parse_error parse_json p net endpoint api_options
     = (Threw (JsError false "Error" text None), [])).
Proof.
  intros Hkey denied.
  assert (Hf : forall ep o,
    Vendor.fetchLatitudeApi base version parse_error parse_json p net ep o
    = (Threw denied, [])).
  { intros ep o. unfold Vendor.fetchLatitudeApi, Vendor.getLatitudeCredentials.
    rewrite Hkey. reflexivity. }
  repeat split.
  - apply Hf.
  - unfold Vendor.listProjects. rewrite Hf. reflexivity.
  - unfold Vendor.stopConversation. apply Hf.
  - unfold Api.request, Api.getConfig. rewrite Hkey. eexists. reflexivity.
Qed.

Lemma missing_key_fails_as_auth_invalid_witness :
  Vendor.fetchLatitudeApi (T := list Api.Document)
    "https://gateway.latitude.so" "v3" no_error_payload rejecting_json
    empty_key_process silent_network "/projects" Vendor.noOptions
  = (Threw (McpErr (ErrorUtil.mkMcpError
       "LATITUDE_API_KEY is required. Set it in your environment or .env file."
       ErrorUtil.AUTH_INVALID (Some 401) None)), []).
Proof.
  exact (proj1 (missing_key_fails_as_auth_invalid (T := list Api.Document)
    (U := list Api.Document)
    "https://gateway.latitude.so" "v3" no_error_payload rejecting_json
    (fun _ => inr "invalid") empty_key_process silent_network "/projects"
    Vendor.noOptions Api.noOptions eq_refl)).
Defined.

(** C9.  A successful response whose Content-Length header is "0" or
    whose status is 204 makes both executors return the empty object,
    for every decoder, one that rejects all input included, and for
    every body, one that never completes included: the body is neither
    read nor parsed. *)
Theorem empty_success_returns_empty_object {T : Type}
    (base version : string)
    (parse_error : string -> option ErrorUtil.LatitudeError)
    (parse_json : string -> T + string)
    (p : Config.Process) (t : Z) (response : Response)
    (endpoint : string) (options : Vendor.RequestOptions)
    (api_options : Api.RequestOptions) :
  ok response = true ->
  content_length response = Some "0" \/ status response = 204 ->
  t <= Api.timer_delay (Js.or_num (Api.opt_timeout api_options) Api.API_TIMEOUT_MS) ->
  (forall cfg, Api.getConfig p = Returned cfg ->
     (Api.request parse_error parse_json p (answering t response) endpoint
        api_options).1 = Returned EmptyObject) /\
  (forall cred, Vendor.getLatitudeCredentials base p = Returned cred ->
     (Vendor.fetchLatitudeApi base version parse_error parse_json p
        (answering t response) endpoint options).1 = Returned EmptyObject).
Proof.
  intros Hok Hempty Ht.
  assert (He : (match content_length response with
                | Some l => String.eqb l "0"
                | None => false
                end || (status response =? 204)) = true).
  { destruct Hempty as [-> | ->]; [reflexivity | apply orb_true_r]. }
  split.
  - intros cfg Hcfg. unfold Api.request. rewrite Hcfg. cbv zeta.
    unfold answering. rewrite (proj2 (Z.leb_le _ _) Ht).
    unfold Api.on_response. rewrite Hok, He. reflexivity.
  - intros cred Hcred. unfold Vendor.fetchLatitudeApi. rewrite Hcred. cbv zeta.
    unfold answering, Vendor.on_response. rewrite Hok, He. reflexivity.
Qed.

Lemma empty_success_returns_empty_object_witness :
  (Api.request (T := list Api.Document) no_error_payload rejecting_json
     configured_process (answering 120 stalled_204) "/projects/42/versions"
     Api.noOptions).1 = Returned EmptyObject.
Proof.
  refine (proj1 (empty_success_returns_empty_object (T := list Api.Document)
    "https://gateway.latitude.so" "v3" no_error_payload rejecting_json
    configured_process 120 stalled_204 "/projects/42/versions"
    Vendor.noOptions Api.noOptions _ _ _) _ _).
  - reflexivity.
  - right. reflexivity.
  - vm_compute. discriminate.
  - reflexivity.
Defined.

End Executors.

(** ** [getPromptNames] *)
Section PromptNames.
Import Net Claims.

Example getPromptNames_lists_paths :
  (Api.getPromptNames no_error_payload two_documents_json configured_process
     (answering 35 (mkResponse 200 (Some "181") (BodyText "[...]")))).1
  = Returned ["onboarding/welcome"; "support/triage"].
Proof. reflexivity. Qed.

Example getPromptNames_swallows_500 :
  (Api.getPromptNames no_error_payload two_documents_json configured_process
     (answering 35 (mkResponse 500 None (BodyText "boom")))).1
  = Returned [].
Proof. reflexivity. Qed.

Example getPromptNames_swallows_missing_key :
  Api.getPromptNames no_error_payload two_documents_json empty_key_process
    silent_network
  = (Returned [], []).
Proof. reflexivity. Qed.

(** C10.  [getPromptNames] never throws: whatever [listDocuments('live')]
    does, the outcome is not a thrown error; when [listDocuments] throws,
    the result is the empty list; when it returns documents, the result
    is the [path] of each document in order. *)
Theorem getPromptNames_never_throws
    (parse_error : string -> option ErrorUtil.LatitudeError)
    (parse_documents : string -> list Api.Document + string)
    (p : Config.Process) (net : Network) :
  let docs := (Api.listDocuments parse_error parse_documents p net "live").1 in
  let names := (Api.getPromptNames parse_error parse_documents p net).1 in
  (forall e, names <> Threw e) /\
  (forall e, docs = Threw e -> names = Returned []) /\
  (forall l, docs = Returned (Value l) -> names = Returned (map Api.path l)).
Proof.
  cbv zeta. unfold Api.getPromptNames.
  destruct (Api.listDocuments parse_error parse_documents p net "live")
    as [[[|l]|e|] sent]; cbn; repeat split; intros; congruence.
Qed.

Lemma getPromptNames_never_throws_witness :
  (Api.getPromptNames no_error_payload two_documents_json configured_process
     (answering 35 (mkResponse 503 None (BodyText "unavailable")))).1
  = Returned [].
Proof.
  refine (proj1 (proj2 (getPromptNames_never_throws no_error_payload
    two_documents_json configured_process
    (answering 35 (mkResponse 503 None (BodyText "unavailable"))))) _ _).
  reflexivity.
Defined.

End PromptNames.

(** ** The retry policy *)
Section RetryPolicy.
Import Retry.
Local Open Scope nat_scope.

Context {V : Type}.
Variable policy : Policy.
Variable operation : nat -> Result V.
Variable random : nat -> Z.

Lemma attempt_loop_eq (fuel attempt : nat) (sleeps : list Z) :
  attempt_loop policy operation random fuel attempt sleeps =
  match operation attempt with
  | Success v => mkRunLog (Success v) attempt sleeps
  | Failure e =>
      if retryable policy (kind e) && Nat.ltb attempt (maxAttempts policy) then
        match fuel with
        | O => mkRunLog (Failure e) attempt sleeps
        | S fuel' =>
            attempt_loop policy operation random fuel' (S attempt)
              (sleeps ++ [delay_before_retry policy e attempt (random attempt)])
        end
      else mkRunLog (Failure e) attempt sleeps
  end.
Proof. destruct fuel; reflexivity. Qed.

(** [k] retryable failures in a row, with attempts left, move the loop
    [k] attempts further and make it sleep [k] times. *)
Lemma attempt_loop_advances (k : nat) :
  forall (fuel attempt : nat) (sleeps : list Z),
    (forall i, i < k ->
       exists e, operation (attempt + i) = Failure e /\
                 retryable policy (kind e) = true) ->
    attempt + k <= maxAttempts policy ->
    k <= fuel ->
    exists sleeps',
      attempt_loop policy operation random fuel attempt sleeps
      = attempt_loop policy operation random (fuel - k) (attempt + k) sleeps'
      /\ length sleeps' = length sleeps + k.
Proof.
  induction k as [|k IH]; intros fuel attempt sleeps Hfail Hmax Hfuel.
  - exists sleeps. rewrite Nat.sub_0_r, !Nat.add_0_r. split; reflexivity.
  - destruct (Hfail 0 ltac:(lia)) as (e & He & Hr).
    rewrite Nat.add_0_r in He.
    destruct fuel as [|fuel]; [lia|].
    rewrite attempt_loop_eq, He, Hr.
    replace (Nat.ltb attempt (maxAttempts policy)) with true
      by (symmetry; apply Nat.ltb_lt; lia).
    cbn [andb].
    destruct (IH fuel (S attempt)
                (sleeps ++ [delay_before_retry policy e attempt (random attempt)])%list)
      as (sleeps' & Heq & Hlen).
    + intros i Hi. destruct (Hfail (S i) ltac:(lia)) as (e' & He' & Hr').
      exists e'. replace (S attempt + i) with (attempt + S i) by lia. auto.
    + lia.
    + lia.
    + exists sleeps'. rewrite Heq.
      replace (S attempt + k) with (attempt + S k) by lia.
      split; [reflexivity|].
      rewrite Hlen, length_app. cbn [length]. lia.
Qed.

(** C3.  Under a policy that retries ServerError and does not retry
    AuthInvalid: failures of kind ServerError followed by a success
    within [maxAttempts] give that success; [maxAttempts] ServerError
    failures in a row give the last error as it is, after exactly
    [maxAttempts] attempts; and an AuthInvalid failure ends the run at
    the attempt where it occurs, whatever budget is left. *)
Theorem withRetry_policy :
  retryable policy ServerError = true ->
  retryable policy AuthInvalid = false ->
  1 <= maxAttempts policy ->
  let run := withRetry policy operation random in
  (forall (k : nat) (v : V),
      k < maxAttempts policy ->
      (forall i, i < k ->
         exists e, operation (1 + i) = Failure e /\ kind e = ServerError) ->
      operation (1 + k) = Success v ->
      result run = Success v /\ attempts run = 1 + k) /\
  (forall last : ClassifiedError,
      (forall i, i < maxAttempts policy ->
         exists e, operation (1 + i) = Failure e /\ kind e = ServerError) ->
      operation (maxAttempts policy) = Failure last ->
      result run = Failure last /\ attempts run = maxAttempts policy /\
      length (slept run) = maxAttempts policy - 1) /\
  (forall (k : nat) (e : ClassifiedError),
      k < maxAttempts policy ->
      (forall i, i < k ->
         exists e', operation (1 + i) = Failure e' /\ kind e' = ServerError) ->
      operation (1 + k) = Failure e ->
      kind e = AuthInvalid ->
      result run = Failure e /\ attempts run = 1 + k).
Proof.
  intros Hsrv Hauth Hmax run. subst run. unfold withRetry.
  assert (Hadv : forall k,
    k < maxAttempts policy ->
    (forall i, i < k ->
       exists e, operation (1 + i) = Failure e /\ kind e = ServerError) ->
    exists sleeps',
      attempt_loop policy operation random (maxAttempts policy) 1 []
      = attempt_loop policy operation random (maxAttempts policy - k) (1 + k) sleeps'
      /\ length sleeps' = k).
  { intros k Hk Hfail.
    destruct (attempt_loop_advances k (maxAttempts policy) 1 []) as (s & Hs & Hl).
    - intros i Hi. destruct (Hfail i Hi) as (e & He & Hkind).
      exists e. rewrite Hkind. auto.
    - lia.
    - lia.
    - exists s. split; [exact Hs | exact Hl]. }
  repeat split.
  - destruct (Hadv k H H0) as (s & -> & _).
    rewrite attempt_loop_eq, H1. reflexivity.
  - destruct (Hadv k H H0) as (s & -> & _).
    rewrite attempt_loop_eq, H1. reflexivity.
  - destruct (Hadv (maxAttempts policy - 1) ltac:(lia)) as (s & -> & _).
    { intros i Hi. apply H. lia. }
    replace (1 + (maxAttempts policy - 1)) with (maxAttempts policy) by lia.
    rewrite attempt_loop_eq, H0, Nat.ltb_irrefl, andb_false_r. reflexivity.
  - destruct (Hadv (maxAttempts policy - 1) ltac:(lia)) as (s & -> & _).
    { intros i Hi. apply H. lia. }
    replace (1 + (maxAttempts policy - 1)) with (maxAttempts policy) by lia.
    rewrite attempt_loop_eq, H0, Nat.ltb_irrefl, andb_false_r. reflexivity.
  - destruct (Hadv (maxAttempts policy - 1) ltac:(lia)) as (s & -> & Hl).
    { intros i Hi. apply H. lia. }
    replace (1 + (maxAttempts policy - 1)) with (maxAttempts policy) by lia.
    rewrite attempt_loop_eq, H0, Nat.ltb_irrefl, andb_false_r. exact Hl.
  - destruct (Hadv k H H0) as (s & -> & _).
    rewrite attempt_loop_eq, H1, H2, Hauth. reflexivity.
  - destruct (Hadv k H H0) as (s & -> & _).
    rewrite attempt_loop_eq, H1, H2, Hauth. reflexivity.
Qed.

End RetryPolicy.

Lemma withRetry_policy_witness :
  Retry.result
    (Retry.withRetry Retry.defaultPolicy Claims.flaky_operation (fun _ => 0))
  = Retry.Success "ok"
  /\ Retry.attempts
       (Retry.withRetry Retry.defaultPolicy Claims.flaky_operation (fun _ => 0))
     = 3%nat.
Proof.
  refine (proj1 (withRetry_policy Retry.defaultPolicy Claims.flaky_operation
                   (fun _ => 0) _ _ _) 2%nat "ok" _ _ _).
  - reflexivity.
  - reflexivity.
  - cbn. lia.
  - cbn. lia.
  - intros i Hi. destruct i as [|[|i]]; [eexists; split; reflexivity ..|lia].
  - reflexivity.
Defined.

(** * Further properties *)

(** ** The classifier and the controller's error handler *)
Section HandlerProperties.
Import ErrorHandler ErrorFormat Controller.

Lemma or_num_nonzero (o : option Z) (d : Z) : d <> 0 -> Js.or_num o d <> 0.
Proof.
  intros Hd. unfold Js.or_num. destruct o as [n|]; [|exact Hd].
  destruct (Z.eqb_spec n 0); assumption.
Qed.

Lemma or_num_keeps (s d : Z) : s <> 0 -> Js.or_num (Some s) d = s.
Proof.
  intros Hs. unfold Js.or_num. destruct (Z.eqb_spec s 0); [contradiction|reflexivity].
Qed.

Lemma detect_status_nonzero (e : Thrown) (ctx : ErrorContext) :
  statusCode (detectErrorType e ctx) <> 0.
Proof.
  unfold detectErrorType.
  repeat match goal with
         | |- context [if ?b then _ else _] => destruct b
         end; cbn [statusCode]; try lia; apply or_num_nonzero; lia.
Qed.

(** X1.  The status the classifier returns is never 0: it is one of the
    fixed codes 400, 403, 404, 429, 500, or the non-zero status the
    error carries. *)
Theorem detectErrorType_status_never_zero (e : Thrown) (ctx : ErrorContext) :
  let s := statusCode (detectErrorType e ctx) in
  s <> 0 /\
  (In s [400; 403; 404; 429; 500] \/ status_of e = Some s).
Proof.
  cbv zeta. unfold detectErrorType.
  assert (Hor : forall d, d <> 0 ->
            Js.or_num (status_of e) d <> 0 /\
            (Js.or_num (status_of e) d = d \/
             status_of e = Some (Js.or_num (status_of e) d))).
  { intros d Hd. split; [apply or_num_nonzero; exact Hd|].
    unfold Js.or_num. destruct (status_of e) as [n|]; [|left; reflexivity].
    destruct (Z.eqb_spec n 0); [left|right]; reflexivity. }
  repeat match goal with
         | |- context [if ?b then _ else _] => destruct b
         end; cbn [statusCode In];
    try (split; [lia | left; tauto]).
  all: match goal with
       | |- context [Js.or_num _ ?d] =>
           destruct (Hor d ltac:(lia)) as [Hnz [Heq | Heq]]
       end;
       (split; [exact Hnz|]);
       first [ right; exact Heq | left; rewrite Heq; tauto ].
Qed.

(** X2.  [handleControllerError] always throws with a non-zero status: the
    status of the caught error when it has a non-zero one, whatever the
    message says, and otherwise a status the classifier picked. *)
Theorem handleControllerError_status (e : Thrown) (ctx : ErrorContext) :
  (exists s, mcp_statusCode (handleControllerError e ctx) = Some s /\ s <> 0) /\
  (forall s, status_of e = Some s -> s <> 0 ->
     mcp_statusCode (handleControllerError e ctx) = Some s) /\
  ((status_of e = None \/ status_of e = Some 0) ->
     mcp_statusCode (handleControllerError e ctx)
     = Some (statusCode (detectErrorType e ctx))).
Proof.
  unfold handleControllerError. cbn [mcp_statusCode].
  repeat split.
  - eexists. split; [reflexivity|].
    apply or_num_nonzero. apply detect_status_nonzero.
  - intros s Hs Hnz. rewrite Hs, or_num_keeps by assumption. reflexivity.
  - intros [-> | ->]; reflexivity.
Qed.

Lemma handleControllerError_status_witness :
  ErrorFormat.mcp_statusCode
    (Controller.handleControllerError
       (McpErr (ErrorUtil.createApiError "rate limit exceeded" (Some 503) None))
       ErrorHandler.emptyContext)
  = Some 503.
Proof.
  refine (proj1 (proj2 (handleControllerError_status
    (McpErr (ErrorUtil.createApiError "rate limit exceeded" (Some 503) None))
    ErrorHandler.emptyContext)) 503 _ _).
  - reflexivity.
  - lia.
Defined.

(** X3.  The message [handleControllerError] throws with: the caught message
    itself for a validation error; a text that does not depend on the
    caught message for NOT_FOUND and ACCESS_DENIED; and for every other
    code a headline followed by the caught message as trailing detail,
    when that message is not empty. *)
Theorem handleControllerError_message (e : Thrown) (ctx : ErrorContext) :
  let c := code (detectErrorType e ctx) in
  let thrown := mcp_message (handleControllerError e ctx) in
  (c = VALIDATION_ERROR -> thrown = message_of e) /\
  (c = NOT_FOUND \/ c = ACCESS_DENIED ->
   thrown = createUserFriendlyErrorMessage c ctx None) /\
  (c <> VALIDATION_ERROR -> c <> NOT_FOUND -> c <> ACCESS_DENIED ->
   message_of e <> EmptyString ->
   thrown = createUserFriendlyErrorMessage c ctx None
            ++ " Error details: " ++ message_of e).
Proof.
  cbv zeta. unfold handleControllerError. cbn [mcp_message].
  destruct (code (detectErrorType e ctx)) eqn:Hc; cbn [ErrorCode_eqb];
    repeat split; intros; try congruence;
    try (destruct H; congruence).
  all: try (unfold createUserFriendlyErrorMessage;
            cbn [ErrorCode_eqb negb andb]; rewrite ?andb_false_r;
            reflexivity).
  all: destruct (message_of e) as [|a m]; [congruence|];
       unfold createUserFriendlyErrorMessage;
       cbn [Js.truthy ErrorCode_eqb negb andb]; reflexivity.
Qed.

Lemma handleControllerError_message_witness :
  ErrorFormat.mcp_message
    (Controller.handleControllerError
       (McpErr (ErrorUtil.createApiError "name is required" (Some 422) None))
       ErrorHandler.emptyContext)
  = "name is required".
Proof.
  refine (proj1 (handleControllerError_message
    (McpErr (ErrorUtil.createApiError "name is required" (Some 422) None))
    ErrorHandler.emptyContext) _).
  reflexivity.
Defined.

End HandlerProperties.

(** ** Errors on their way out: service, controller, formatters *)
Section ErrorPath.
Import Net ErrorUtil ErrorHandler ErrorFormat Controller Samples.

Example controller_hides_missing_key_text :
  (Controller.listProjects (T := unit) (U := unit) "https://gateway.latitude.so" "v3"
     Claims.no_error_payload Claims.rejecting_json (fun _ => inl tt)
     (fun _ => Returned "[]") Claims.empty_key_process Claims.silent_network).1
  = Failed (mkMcp
      "Access denied for latitude projects projects. Verify your credentials and permissions."
      API_ERROR (Some 401)
      (JsMcp "LATITUDE_API_KEY is required. Set it in your environment or .env file."
         AUTH_INVALID (Some 401) JsUndefined)).
Proof. reflexivity. Qed.



(** X5.  The error the service builds for a failed response: AUTH_INVALID
    exactly for 401 and 403, API_ERROR otherwise; the status is kept,
    except that a 403 is recorded as 401; and a non-empty upstream
    message, when the body parses as an error payload, is the message. *)
Theorem http_error_by_status
    (parse_error : string -> option LatitudeError)
    (status : Z) (errorText : string) :
  let e := Vendor.http_error parse_error status errorText in
  (ErrorUtil.type e = AUTH_INVALID <-> status = 401 \/ status = 403) /\
  (ErrorUtil.type e = AUTH_INVALID \/ ErrorUtil.type e = API_ERROR) /\
  ErrorUtil.statusCode e = Some (if status =? 403 then 401 else status) /\
  (forall d, parse_error errorText = Some d -> le_message d <> EmptyString ->
     ErrorUtil.message e = le_message d).
Proof.
  cbv zeta. unfold Vendor.http_error.
  destruct (Z.eqb_spec status 401) as [->|H401].
  { cbn. repeat split; auto.
    intros d -> Hd. cbn. destruct (le_message d); [congruence|reflexivity]. }
  destruct (Z.eqb_spec status 403) as [->|H403].
  { cbn. repeat split; auto.
    intros d -> Hd. cbn. destruct (le_message d); [congruence|reflexivity]. }
  assert (Hmsg : forall dflt d, parse_error errorText = Some d ->
            le_message d <> EmptyString ->
            Js.or_str (option_map le_message (parse_error errorText)) dflt
            = le_message d).
  { intros dflt d -> Hd. cbn. destruct (le_message d); [congruence|reflexivity]. }
  destruct (status =? 404), (status =? 422); cbn;
    (split; [split; [discriminate | intros [?|?]; contradiction]|]);
    (split; [right; reflexivity|]);
    (split; [reflexivity|]); apply Hmsg.
Qed.

Lemma http_error_by_status_witness :
  ErrorUtil.message (Vendor.http_error payload_decoder 404 "{...}")
  = "Document secret/plan is missing in commit 91".
Proof.
  refine (proj2 (proj2 (proj2
    (http_error_by_status payload_decoder 404 "{...}"))) not_found_payload _ _).
  - reflexivity.
  - discriminate.
Defined.

(** X6.  An upstream 403 leaves the controller as status 401, whatever its
    body and whatever the context. *)
Theorem forbidden_leaves_controller_as_401
    (parse_error : string -> option LatitudeError)
    (errorText : string) (ctx : ErrorContext) :
  mcp_statusCode
    (handleControllerError (McpErr (Vendor.http_error parse_error 403 errorText)) ctx)
  = Some 401.
Proof.
  unfold handleControllerError, Vendor.http_error. cbn [mcp_statusCode].
  reflexivity.
Qed.

Lemma ensureMcpError_value_of_mcp (e : Mcp) : ensureMcpError (value_of_mcp e) = e.
Proof. destruct e; reflexivity. Qed.

(** X7.  [ensureMcpError] leaves an [McpError] alone, is idempotent, and for
    every value the clients throw keeps the message the classifier
    reads. *)
Theorem ensureMcpError_stable :
  (forall e : Mcp, ensureMcpError (value_of_mcp e) = e) /\
  (forall v : JsValue,
     ensureMcpError (value_of_mcp (ensureMcpError v)) = ensureMcpError v) /\
  (forall e : Thrown,
     mcp_message (ensureMcpError (value_of_thrown e)) = message_of e) /\
  (forall e : Thrown,
     (forall m, e <> McpErr m) ->
     mcp_type (ensureMcpError (value_of_thrown e)) = ErrorUtil.UNEXPECTED_ERROR /\
     mcp_statusCode (ensureMcpError (value_of_thrown e)) = None).
Proof.
  repeat split.
  - destruct e; reflexivity.
  - destruct v; reflexivity.
  - destruct e as [b n m s|d s|m|t]; reflexivity.
  - destruct e as [b n m s|d s|m|t]; try reflexivity. exfalso. eapply H; reflexivity.
  - destruct e as [b n m s|d s|m|t]; try reflexivity. exfalso. eapply H; reflexivity.
Qed.

Lemma ensureMcpError_stable_witness :
  mcp_type (ensureMcpError
              (value_of_thrown (JsError false "ZodError" "expected array" None)))
  = ErrorUtil.UNEXPECTED_ERROR.
Proof.
  refine (proj1 (proj2 (proj2 (proj2 ensureMcpError_stable))
    (JsError false "ZodError" "expected array" None) _)).
  intros m. discriminate.
Defined.

Lemma wrap_truthy layers root :
  is_truthy root = true -> is_truthy (wrap layers root) = true.
Proof. destruct layers as [|[[msg t] s] rest]; [trivial | reflexivity]. Qed.

Lemma deep_loop_stops (fuel : nat) (v : JsValue) :
  can_unwrap v = false -> deep_loop fuel v = v.
Proof.
  destruct fuel; [reflexivity|]. destruct v; try reflexivity.
  cbn. intros ->. reflexivity.
Qed.

Lemma deep_loop_wrap (layers rest : list (string * ErrorType * option Z))
    (root : JsValue) :
  is_truthy root = true ->
  deep_loop (length layers) (wrap (layers ++ rest) root) = wrap rest root.
Proof.
  intros Hroot. induction layers as [|[[msg t] s] layers IH]; [reflexivity|].
  cbn [length app wrap deep_loop]. rewrite wrap_truthy by assumption. exact IH.
Qed.

Lemma deep_loop_more (layers : list (string * ErrorType * option Z))
    (root : JsValue) (extra : nat) :
  is_truthy root = true -> can_unwrap root = false ->
  deep_loop (length layers + extra) (wrap layers root) = root.
Proof.
  intros Hroot Hstop. induction layers as [|[[msg t] s] layers IH].
  - apply deep_loop_stops. exact Hstop.
  - cbn [length Nat.add wrap deep_loop]. rewrite wrap_truthy by assumption. exact IH.
Qed.

(** X8.  [getDeepOriginalError] follows at most ten [originalError] links:
    under ten or fewer wrappers it returns the innermost cause, and
    under more it returns the value found ten links down, still
    wrapped. *)
Theorem getDeepOriginalError_depth
    (layers rest : list (string * ErrorType * option Z)) (root : JsValue) :
  is_truthy root = true ->
  (can_unwrap root = false -> (length layers <= 10)%nat ->
   getDeepOriginalError (wrap layers root) = root) /\
  (length layers = 10%nat ->
   getDeepOriginalError (wrap (layers ++ rest) root) = wrap rest root).
Proof.
  intros Hroot. unfold getDeepOriginalError, maxDepth. split.
  - intros Hstop Hlen. rewrite wrap_truthy by assumption. cbn [negb].
    replace 10%nat with (length layers + (10 - length layers))%nat by lia.
    apply deep_loop_more; assumption.
  - intros Hlen. rewrite wrap_truthy by assumption. cbn [negb].
    rewrite <- Hlen. apply deep_loop_wrap. assumption.
Qed.

Lemma getDeepOriginalError_depth_witness :
  getDeepOriginalError
    (wrap [("outer", API_ERROR, Some 404); ("inner", API_ERROR, Some 404)]
       (JsData not_found_payload))
  = JsData not_found_payload.
Proof.
  refine (proj1 (getDeepOriginalError_depth
    [("outer", API_ERROR, Some 404); ("inner", API_ERROR, Some 404)] []
    (JsData not_found_payload) _) _ _).
  - reflexivity.
  - reflexivity.
  - cbn. lia.
Defined.

End ErrorPath.

(** ** What the tool, the resource and the CLI show of a controller error *)
Section Boundary.
Import Net ErrorUtil ErrorFormat Controller Samples.

Lemma http_error_original
    (parse_error : string -> option LatitudeError)
    (status : Z) (errorText : string) :
  originalError (Vendor.http_error parse_error status errorText) =
  if (status =? 401) || (status =? 403) then None
  else Some match parse_error errorText with
            | Some d => OrigData d
            | None => OrigText errorText
            end.
Proof.
  unfold Vendor.http_error.
  destruct (status =? 401), (status =? 403), (status =? 404), (status =? 422);
    reflexivity.
Qed.

(** X9.  The tool result built from a controller error for a failed upstream
    response is flagged as an error of type API_ERROR, and its
    [errorDetails] carry what the upstream said: the parsed payload, or
    the raw body when it does not parse, or, for 401 and 403, the
    message of the service error; this holds for NOT_FOUND too, whose
    rendered text leaves the upstream message out. *)
Theorem tool_error_keeps_upstream_details
    (parse_error : string -> option LatitudeError)
    (status : Z) (errorText : string) (ctx : ErrorHandler.ErrorContext) :
  let service := Vendor.http_error parse_error status errorText in
  let r := formatErrorForMcpTool
             (value_of_mcp (handleControllerError (McpErr service) ctx)) in
  isError r = true /\ errorType r = API_ERROR /\
  (status <> 401 -> status <> 403 ->
   forall d, parse_error errorText = Some d ->
     errorDetails r = DetailsValue (JsData d)) /\
  (status <> 401 -> status <> 403 ->
   parse_error errorText = None -> errorText <> EmptyString ->
     errorDetails r = DetailsValue (JsText errorText)) /\
  (status = 401 \/ status = 403 ->
     errorDetails r = DetailsMessage (ErrorUtil.message service)).
Proof.
  cbv zeta. unfold formatErrorForMcpTool, handleControllerError, value_of_mcp.
  cbn [ensureMcpError mcp_originalError mcp_type mcp_message mcp_statusCode
       isError errorType errorDetails value_of_thrown].
  rewrite http_error_original.
  repeat split.
  - intros H1 H3 d Hd.
    rewrite (proj2 (Z.eqb_neq _ _) H1), (proj2 (Z.eqb_neq _ _) H3), Hd.
    reflexivity.
  - intros H1 H3 Hd Htext.
    rewrite (proj2 (Z.eqb_neq _ _) H1), (proj2 (Z.eqb_neq _ _) H3), Hd.
    destruct errorText; [congruence|reflexivity].
  - intros [-> | ->]; reflexivity.
Qed.

Lemma tool_error_keeps_upstream_details_witness :
  errorDetails
    (formatErrorForMcpTool
       (value_of_mcp
          (handleControllerError
             (McpErr (Vendor.http_error payload_decoder 404 "{...}"))
             (buildErrorContext "Latitude" "getPrompt"
                "controllers/latitude.controller.ts@getPrompt"
                (Some (ErrorHandler.IdString "secret/plan"))))))
  = DetailsValue (JsData not_found_payload).
Proof.
  refine (proj1 (proj2 (proj2 (tool_error_keeps_upstream_details
    payload_decoder 404 "{...}"
    (buildErrorContext "Latitude" "getPrompt"
       "controllers/latitude.controller.ts@getPrompt"
       (Some (ErrorHandler.IdString "secret/plan")))))) _ _ not_found_payload _).
  - lia.
  - lia.
  - reflexivity.
Defined.

Lemma tips_differ :
  tip_auth_missing <> tip_rate_limit /\ tip_auth_invalid <> tip_rate_limit /\
  tip_auth_missing <> tip_debug /\ tip_auth_invalid <> tip_debug /\
  tip_rate_limit <> tip_debug.
Proof. repeat split; discriminate. Qed.

(** X10.  What the CLI prints for an error thrown by [handleControllerError]:
    the exit code is 1 and the first line is "Error: " followed by the
    message; neither authentication hint is ever printed, because the
    controller rethrows every error as API_ERROR; the rate-limit hint is
    printed exactly when the status is 429. *)
Theorem cli_after_controller (p : Config.Process) (e : Thrown)
    (ctx : ErrorHandler.ErrorContext) :
  let thrown := handleControllerError e ctx in
  let out := handleCliError p (value_of_mcp thrown) in
  out.2 = 1 /\
  hd_error out.1 = Some ("Error: " ++ mcp_message thrown) /\
  ~ In tip_auth_missing out.1 /\
  ~ In tip_auth_invalid out.1 /\
  (In tip_rate_limit out.1 <-> mcp_statusCode thrown = Some 429).
Proof.
  cbv zeta. unfold handleCliError.
  replace (ensureMcpError (value_of_mcp (handleControllerError e ctx)))
    with (handleControllerError e ctx) by (symmetry; apply ensureMcpError_value_of_mcp).
  set (thrown := handleControllerError e ctx).
  assert (Htype : mcp_type thrown = API_ERROR) by reflexivity.
  rewrite Htype. cbn [fst snd hd_error].
  set (api := match object_message _ with Some _ => _ | None => _ end).
  set (dbg := match Config.env p !! "DEBUG" with Some _ => _ | None => _ end).
  assert (Hapi : forall x, In x api ->
            exists m, x = after_blank ("API error: " ++ m)).
  { subst api. intros x. destruct (object_message _) as [m|]; [|intros []].
    destruct (Js.truthy m); [|intros []].
    intros [<- | []]. exists m. reflexivity. }
  assert (Hdbg : forall x, In x dbg -> x = tip_debug).
  { subst dbg. intros x. destruct (Config.env p !! "DEBUG") as [v|].
    - destruct (String.eqb v "mcp:*"); [intros [] | intros [<- | []]; reflexivity].
    - intros [<- | []]; reflexivity. }
  assert (Hrate : forall x,
            In x (if Js.num_is (mcp_statusCode thrown) 429
                  then [tip_rate_limit] else []) -> x = tip_rate_limit).
  { intros x. destruct (Js.num_is _ 429); [intros [<- | []]; reflexivity | intros []]. }
  destruct tips_differ as (D1 & D2 & D3 & D4 & D5).
  assert (Hno : forall tip,
            tip <> tip_rate_limit -> tip <> tip_debug ->
            (forall m, tip <> after_blank ("API error: " ++ m)) ->
            (forall m, tip <> "Error: " ++ m) ->
            ~ In tip
                (("Error: " ++ mcp_message thrown)
                 :: ((if Js.num_is (mcp_statusCode thrown) 429
                      then [tip_rate_limit] else []) ++ api) ++ dbg)).
  { intros tip N1 N2 N3 N4 [Hin | Hin].
    - apply (N4 (mcp_message thrown)). symmetry. exact Hin.
    - rewrite !in_app_iff in Hin. destruct Hin as [[Hin | Hin] | Hin].
      + apply N1. apply Hrate. exact Hin.
      + destruct (Hapi _ Hin) as [m Hm]. apply (N3 m). exact Hm.
      + apply N2. apply Hdbg. exact Hin. }
  repeat split.
  - apply Hno; [exact D1 | exact D3 | intros m; discriminate | intros m; discriminate].
  - apply Hno; [exact D2 | exact D4 | intros m; discriminate | intros m; discriminate].
  - intros [Hin | Hin]; [discriminate Hin|].
    rewrite !in_app_iff in Hin. destruct Hin as [[Hin | Hin] | Hin].
    + unfold Js.num_is in Hin. destruct (mcp_statusCode thrown) as [s|]; [|destruct Hin].
      destruct (Z.eqb_spec s 429); [subst; reflexivity | destruct Hin].
    + destruct (Hapi _ Hin) as [m Hm]. discriminate Hm.
    + apply Hdbg in Hin. exfalso. exact (D5 Hin).
  - intros Hs. right. rewrite !in_app_iff. left. left. rewrite Hs. left. reflexivity.
Qed.

Lemma cli_after_controller_witness :
  In tip_rate_limit
    (handleCliError debug_process
       (value_of_mcp
          (handleControllerError
             (McpErr (createApiError "Too Many Requests" (Some 429) None))
             ErrorHandler.emptyContext))).1.
Proof.
  refine (proj2 (proj2 (proj2 (proj2 (proj2 (cli_after_controller debug_process
    (McpErr (createApiError "Too Many Requests" (Some 429) None))
    ErrorHandler.emptyContext))))) _).
  reflexivity.
Defined.

(** X11.  A failure of the [listProjects] controller reaches a resource reader
    as one text entry under the requested URI, "Error: " followed by the
    controller's message, described as "Error: API_ERROR" whatever the
    type of the error the service threw. *)
Theorem resource_failure_is_api_error {T U : Type}
    (base version : string)
    (parse_error : string -> option LatitudeError)
    (parse_json : string -> T + string)
    (ProjectListSchema : Payload T -> U + string)
    (formatOutput : U -> Outcome string)
    (p : Config.Process) (net : Network) (uri : string) (e : Mcp) :
  (Controller.listProjects base version parse_error parse_json
     ProjectListSchema formatOutput p net).1 = Failed e ->
  Controller.projectsResource base version parse_error parse_json
    ProjectListSchema formatOutput p net uri
  = Some [mkResourceContent uri ("Error: " ++ mcp_message e) "text/plain"
            (Some "Error: API_ERROR")].
Proof.
  intros Hfail. unfold Controller.projectsResource. rewrite Hfail.
  assert (Htype : mcp_type e = API_ERROR).
  { unfold Controller.listProjects, then_format, guarded in Hfail.
    destruct (Vendor.listProjects _ _ _ _ _ _ _) as [[u|err|] sent];
      cbn in Hfail.
    - destruct (formatOutput u); discriminate Hfail.
    - injection Hfail as <-. reflexivity.
    - discriminate Hfail. }
  unfold formatErrorForMcpResource.
  replace (ensureMcpError (value_of_mcp e)) with e
    by (symmetry; apply ensureMcpError_value_of_mcp).
  rewrite Htype. reflexivity.
Qed.

Lemma resource_failure_is_api_error_witness :
  Controller.projectsResource (T := unit) (U := unit) "https://gateway.latitude.so" "v3"
    Claims.no_error_payload Claims.rejecting_json (fun _ => inl tt)
    (fun _ => Returned "[]") Claims.empty_key_process Claims.silent_network
    "latitude://projects"
  = Some [mkResourceContent "latitude://projects"
            "Error: Access denied for latitude projects projects. Verify your credentials and permissions."
            "text/plain" (Some "Error: API_ERROR")].
Proof.
  refine (resource_failure_is_api_error (T := unit) (U := unit)
    "https://gateway.latitude.so" "v3"
    Claims.no_error_payload Claims.rejecting_json (fun _ => inl tt)
    (fun _ => Returned "[]") Claims.empty_key_process Claims.silent_network
    "latitude://projects"
    (mkMcp
       "Access denied for latitude projects projects. Verify your credentials and permissions."
       API_ERROR (Some 401)
       (JsMcp "LATITUDE_API_KEY is required. Set it in your environment or .env file."
          AUTH_INVALID (Some 401) JsUndefined)) _).
  reflexivity.
Defined.

End Boundary.

(** ** More on the configuration loader *)
Section LoaderProperties.
Import Config Claims.

(** X12.  [load] never changes a variable that is already in [process.env]:
    its value stays, and [get] afterwards answers with it, or with the
    default when the value is the empty string; an empty value in the
    environment therefore shadows both files. *)
Theorem load_never_overwrites (files : Files) (st : ConfigLoader * Process)
    (key value : string) (d : option string) :
  env st.2 !! key = Some value ->
  env (load files st).2 !! key = Some value /\
  get (load files st).2 key d = if Js.truthy value then Some value else d.
Proof.
  intros Hk. pose proof (load_keeps_process_env files st key value Hk) as Hafter.
  split; [exact Hafter|].
  unfold get. rewrite Hafter. cbn [Js.or_undefined].
  destruct (Js.truthy value); reflexivity.
Qed.

Lemma load_never_overwrites_witness :
  get (load both_files (config, empty_key_process)).2 "LATITUDE_API_KEY"
    (Some "fallback")
  = Some "fallback".
Proof.
  refine (proj2 (load_never_overwrites both_files (config, empty_key_process)
    "LATITUDE_API_KEY" EmptyString (Some "fallback") _)).
  reflexivity.
Defined.



(** X14.  [getBoolean] uses its default only when the variable is unset or
    empty; any other value decides alone: it is [true] exactly when the
    value, lower-cased, is "true", so a value such as "yes" gives [false]
    even under a default of [true]. *)
Theorem getBoolean_default_only_when_unset (p : Process) (key : string) (d : bool) :
  (env p !! key = None \/ env p !! key = Some EmptyString ->
   getBoolean p key d = d) /\
  (forall v, env p !! key = Some v -> v <> EmptyString ->
   getBoolean p key d = String.eqb (Js.toLowerCase v) "true").
Proof.
  unfold getBoolean, get. split.
  - intros [-> | ->]; reflexivity.
  - intros v -> Hv. destruct v; [congruence|]. reflexivity.
Qed.

Lemma getBoolean_default_only_when_unset_witness :
  getBoolean Samples.debug_process "DEBUG" false = true /\
  getBoolean Samples.debug_process "LATITUDE_API_KEY" true = true.
Proof.
  split.
  - rewrite (proj2 (getBoolean_default_only_when_unset Samples.debug_process
               "DEBUG" false) "True" eq_refl ltac:(discriminate)).
    reflexivity.
  - apply (proj1 (getBoolean_default_only_when_unset Samples.debug_process
               "LATITUDE_API_KEY" true)).
    right. reflexivity.
Defined.





End LoaderProperties.

(** ** More on the two request executors *)
Section ExecutorProperties.
Import Net Claims Samples.

Lemma request_times_out_witness :
  exists text,
    (Api.request (T := list Api.Document) no_error_payload rejecting_json
       configured_process silent_network "/projects/42/versions"
       (Api.mkRequestOptions None None (Some 1500))).1
    = Threw (LatitudeApiError
               (ErrorUtil.mkLatitudeError "TimeoutError" "TIMEOUT" text) 408).
Proof.
  refine (request_times_out (T := list Api.Document) no_error_payload
    rejecting_json configured_process silent_network "/projects/42/versions"
    (Api.mkRequestOptions None None (Some 1500))
    (Api.mkLatitudeConfig "lat-key-1" "42" Api.DEFAULT_BASE_URL) _ _).
  - reflexivity.
  - intros req. exact I.
Defined.

Example timeout_message_names_the_timeout :
  (Api.request (T := list Api.Document) no_error_payload rejecting_json
     configured_process silent_network "/projects/42/versions"
     (Api.mkRequestOptions None None (Some 1500))).1
  = Threw (LatitudeApiError
             (ErrorUtil.mkLatitudeError "TimeoutError" "TIMEOUT"
                "Request timed out after 1.5s") 408).
Proof. reflexivity. Qed.

Lemma api_on_catch_shape (options : Api.RequestOptions) (e : Thrown) :
  exists d s, Api.on_catch options e = LatitudeApiError d s.
Proof.
  unfold Api.on_catch. destruct e; try (destruct (Api.is_abort _)); eauto.
Qed.

(** X17.  [request] of [api.ts], once the configuration is resolved, hands
    exactly one request to [fetch] whatever happens next (there is no
    second attempt), with the bearer token and an abort signal; and
    whatever it throws is a [LatitudeApiError]. *)
Theorem request_contract {T : Type}
    (parse_error : string -> option ErrorUtil.LatitudeError)
    (parse_json : string -> T + string)
    (p : Config.Process) (net : Network) (endpoint : string)
    (options : Api.RequestOptions) (cfg : Api.LatitudeConfig) :
  Api.getConfig p = Returned cfg ->
  let run := Api.request parse_error parse_json p net endpoint options in
  run.2 = [mkHttpRequest
             (Api.baseUrl cfg ++ "/api/v3" ++ endpoint)
             (Js.or_str (Api.opt_method options) "GET")
             (base_headers (Api.apiKey cfg))
             (Api.opt_body options) true] /\
  base_headers (Api.apiKey cfg) !! "Authorization"
    = Some ("Bearer " ++ Api.apiKey cfg) /\
  (forall e, run.1 = Threw e -> exists d s, e = LatitudeApiError d s).
Proof.
  intros Hcfg. cbv zeta. unfold Api.request. rewrite Hcfg. cbv zeta.
  cbn [fst snd]. split; [reflexivity|]. split.
  { unfold base_headers.
    rewrite lookup_insert_ne by discriminate.
    rewrite lookup_insert_ne by discriminate.
    apply lookup_insert_eq. }
  intros e.
  match goal with
  | |- match ?settled with _ => _ end = _ -> _ => destruct settled as [v|err|]
  end; try discriminate.
  intros [= <-]. apply api_on_catch_shape.
Qed.

Lemma request_contract_witness :
  length (Api.request (T := list Api.Document) no_error_payload rejecting_json
            configured_process (answering 20 plain_500) "/projects/42/versions"
            Api.noOptions).2 = 1%nat.
Proof.
  rewrite (proj1 (request_contract (T := list Api.Document) no_error_payload
    rejecting_json configured_process (answering 20 plain_500)
    "/projects/42/versions" Api.noOptions
    (Api.mkLatitudeConfig "lat-key-1" "42" Api.DEFAULT_BASE_URL) eq_refl)).
  reflexivity.
Defined.



(** X19.  [request] on a successful response whose body is not valid JSON:
    the failure to parse is reported as a NETWORK_ERROR with status 0,
    carrying the parser's message. *)
Theorem request_malformed_success {T : Type}
    (parse_error : string -> option ErrorUtil.LatitudeError)
    (parse_json : string -> T + string)
    (p : Config.Process) (t : Z) (response : Response) (text syntax : string)
    (endpoint : string) (options : Api.RequestOptions) (cfg : Api.LatitudeConfig) :
  Api.getConfig p = Returned cfg ->
  t <= Api.timer_delay (Js.or_num (Api.opt_timeout options) Api.API_TIMEOUT_MS) ->
  ok response = true ->
  content_length response <> Some "0" ->
  status response <> 204 ->
  body response = BodyText text ->
  parse_json text = inr syntax ->
  (Api.request parse_error parse_json p (answering t response) endpoint options).1
  = Threw (LatitudeApiError
             (ErrorUtil.mkLatitudeError "NetworkError" "NETWORK_ERROR" syntax) 0).
Proof.
  intros Hcfg Ht Hok Hlen H204 Hbody Hparse.
  unfold Api.request. rewrite Hcfg. cbv zeta. unfold answering.
  rewrite (proj2 (Z.leb_le _ _) Ht). unfold Api.on_response.
  rewrite Hok, Hbody, Hparse, (proj2 (Z.eqb_neq _ _) H204).
  assert (Hl : match content_length response with
               | Some l => String.eqb l "0"
               | None => false
               end = false).
  { destruct (content_length response) as [l|]; [|reflexivity].
    destruct (String.eqb_spec l "0"); [subst; congruence | reflexivity]. }
  rewrite Hl. reflexivity.
Qed.

Lemma request_malformed_success_witness :
  (Api.request (T := list Api.Document) no_error_payload rejecting_json
     configured_process (answering 20 truncated_200) "/projects/42/versions"
     Api.noOptions).1
  = Threw (LatitudeApiError
             (ErrorUtil.mkLatitudeError "NetworkError" "NETWORK_ERROR"
                "Unexpected end of JSON input") 0).
Proof.
  refine (request_malformed_success (T := list Api.Document) no_error_payload
    rejecting_json configured_process 20 truncated_200 "[{"
    "Unexpected end of JSON input" "/projects/42/versions" Api.noOptions
    (Api.mkLatitudeConfig "lat-key-1" "42" Api.DEFAULT_BASE_URL)
    eq_refl _ eq_refl _ _ eq_refl eq_refl).
  - vm_compute. discriminate.
  - discriminate.
  - discriminate.
Defined.

Lemma vendor_on_catch_shape (e : Thrown) :
  exists m, Vendor.on_catch e = McpErr m.
Proof. destruct e as [[|] n msg s|d s|m|t]; cbn; eauto. Qed.

(** X20.  [fetchLatitudeApi] throws nothing but [McpError]s; with credentials
    resolved it hands exactly one request to [fetch], without an abort
    signal, whose headers are the caller's headers laid over the three
    default ones. *)
Theorem fetchLatitudeApi_contract {T : Type}
    (base version : string)
    (parse_error : string -> option ErrorUtil.LatitudeError)
    (parse_json : string -> T + string)
    (p : Config.Process) (net : Network)
    (endpoint : string) (options : Vendor.RequestOptions) :
  let run := Vendor.fetchLatitudeApi base version parse_error parse_json p net
               endpoint options in
  (forall e, run.1 = Threw e -> exists m, e = McpErr m) /\
  (forall cred, Vendor.getLatitudeCredentials base p = Returned cred ->
     run.2 = [mkHttpRequest
                (Vendor.baseUrl cred ++ "/api/" ++ version ++ endpoint)
                (Js.or_str (Vendor.opt_method options) "GET")
                (Vendor.opt_headers options ∪ base_headers (Vendor.apiKey cred))
                (Vendor.opt_body options) false]).
Proof.
  cbv zeta. unfold Vendor.fetchLatitudeApi. split.
  - intros e.
    destruct (Vendor.getLatitudeCredentials base p) as [cred|err|] eqn:Hcred.
    + cbv zeta. cbn [fst].
      match goal with
      | |- match ?settled with _ => _ end = _ -> _ => destruct settled as [v|err|]
      end; try discriminate.
      intros [= <-]. apply vendor_on_catch_shape.
    + cbn. intros [= <-]. unfold Vendor.getLatitudeCredentials in Hcred.
      destruct (Config.get p "LATITUDE_API_KEY" None); [discriminate|].
      injection Hcred as <-. eauto.
    + discriminate.
  - intros cred ->. reflexivity.
Qed.

Lemma fetchLatitudeApi_contract_witness :
  map signal
    (Vendor.fetchLatitudeApi (T := list Api.Document) "https://gateway.latitude.so"
       "v3" no_error_payload rejecting_json configured_process
       (answering 20 plain_500) "/projects" Vendor.noOptions).2
  = [false].
Proof.
  rewrite (proj2 (fetchLatitudeApi_contract (T := list Api.Document)
    "https://gateway.latitude.so" "v3" no_error_payload rejecting_json
    configured_process (answering 20 plain_500) "/projects" Vendor.noOptions)
    (Vendor.mkCredentials "lat-key-1" "https://gateway.latitude.so") eq_refl).
  reflexivity.
Defined.

(** X21.  When [fetch] itself rejects, [fetchLatitudeApi] throws an error
    without a status code: an API_ERROR "Network error during API call:
    ..." for a [TypeError], an UNEXPECTED_ERROR "Unexpected error during
    API call: ..." for anything else, each ending with the original
    message. *)
Theorem fetch_rejection_has_no_status {T : Type}
    (base version : string)
    (parse_error : string -> option ErrorUtil.LatitudeError)
    (parse_json : string -> T + string)
    (p : Config.Process) (t : Z) (err : Thrown)
    (endpoint : string) (options : Vendor.RequestOptions)
    (cred : Vendor.Credentials) :
  Vendor.getLatitudeCredentials base p = Returned cred ->
  (forall m, err <> McpErr m) ->
  exists m,
    (Vendor.fetchLatitudeApi base version parse_error parse_json p
       (fun _ => Rejects t err) endpoint options).1 = Threw (McpErr m) /\
    ErrorUtil.statusCode m = None /\
    ErrorUtil.type m = (if is_type_error err then ErrorUtil.API_ERROR
                        else ErrorUtil.UNEXPECTED_ERROR) /\
    ErrorUtil.message m =
      (if is_type_error err then "Network error during API call: "
       else "Unexpected error during API call: ") ++ message_of err.
Proof.
  intros Hcred Hnot. unfold Vendor.fetchLatitudeApi. rewrite Hcred. cbv zeta.
  cbn [fst].
  destruct err as [[|] n msg s|d s|m|text]; cbn;
    try (eexists; repeat split; reflexivity).
  exfalso. eapply Hnot. reflexivity.
Qed.

Lemma fetch_rejection_has_no_status_witness :
  exists m,
    (Vendor.fetchLatitudeApi (T := list Api.Document) "https://gateway.latitude.so"
       "v3" no_error_payload rejecting_json configured_process (refusing 3)
       "/projects" Vendor.noOptions).1 = Threw (McpErr m) /\
    ErrorUtil.message m = "Network error during API call: fetch failed".
Proof.
  destruct (fetch_rejection_has_no_status (T := list Api.Document)
    "https://gateway.latitude.so" "v3" no_error_payload rejecting_json
    configured_process 3 (JsError true "TypeError" "fetch failed" None)
    "/projects" Vendor.noOptions
    (Vendor.mkCredentials "lat-key-1" "https://gateway.latitude.so")
    eq_refl ltac:(discriminate)) as (m & Hrun & _ & _ & Hmsg).
  exists m. split; [exact Hrun | exact Hmsg].
Defined.

End ExecutorProperties.

(** ** Document operations of [api.ts] *)
Section DocumentOperations.
Import Net Claims Samples.

Variable parse_error : string -> option ErrorUtil.LatitudeError.
Variable parse_document : string -> Api.Document + string.
Variable parse_documents : string -> list Api.Document + string.
Variable parse_any : string -> unit + string.
Variable stringify_document : string -> string -> bool -> string.

Example strip_one_slash_only :
  Js.strip_leading_slash "//prompts/a" = "/prompts/a".
Proof. reflexivity. Qed.

(** X22.  A document path may be written with or without a leading slash:
    both clients ask for the same document, for every path that does
    not itself begin with a slash. *)
Theorem getDocument_leading_slash {T U : Type}
    (base version : string)
    (parse_json : string -> T + string)
    (DocumentSchema : Payload T -> U + string)
    (p : Config.Process) (net : Network)
    (projectId versionUuid path : string) :
  Js.strip_leading_slash path = path ->
  Api.getDocument parse_error parse_document p net ("/" ++ path) versionUuid
  = Api.getDocument parse_error parse_document p net path versionUuid /\
  Api.deleteDocument parse_error parse_any p net versionUuid ("/" ++ path)
  = Api.deleteDocument parse_error parse_any p net versionUuid path /\
  Vendor.getDocument base version parse_error parse_json DocumentSchema p net
    projectId versionUuid ("/" ++ path)
  = Vendor.getDocument base version parse_error parse_json DocumentSchema p net
    projectId versionUuid path.
Proof.
  intros Hpath.
  unfold Api.getDocument, Api.deleteDocument, Vendor.getDocument.
  rewrite Hpath. repeat split; reflexivity.
Qed.

Lemma bind_returned {A B : Type} (m : Run A) (k : A -> Run B) (b : B)
    (sent : list HttpRequest) :
  bind m k = (Returned b, sent) ->
  exists a s1 s2,
    m = (Returned a, s1) /\ k a = (Returned b, s2) /\ sent = (s1 ++ s2)%list.
Proof.
  unfold bind. destruct m as [[a|e|] s1]; try discriminate.
  destruct (k a) as [o s2] eqn:Hk. intros [= -> <-].
  exists a, s1, s2. auto.
Qed.

Lemma bind_assoc {A B C : Type} (m : Run A) (f : A -> Run B) (g : B -> Run C) :
  bind (bind m f) g = bind m (fun a => bind (f a) g).
Proof.
  unfold bind. destruct m as [[a|e|] s1]; try reflexivity.
  destruct (f a) as [[b|e|] s2]; try reflexivity.
  destruct (g b) as [o s3]. rewrite app_assoc. reflexivity.
Qed.

Lemma getProjectId_configured (p : Config.Process) (cfg : Api.LatitudeConfig) :
  Api.getConfig p = Returned cfg ->
  Api.getProjectId p = (Returned (Api.projectId cfg), []).
Proof. intros H. unfold Api.getProjectId. rewrite H. reflexivity. Qed.

Lemma request_one {T : Type} (pj : string -> T + string) (p : Config.Process)
    (net : Network) (endpoint : string) (options : Api.RequestOptions)
    (cfg : Api.LatitudeConfig) :
  Api.getConfig p = Returned cfg ->
  length (Api.request parse_error pj p net endpoint options).2 = 1%nat.
Proof. intros H. unfold Api.request. rewrite H. reflexivity. Qed.

Lemma deleteDocument_one (p : Config.Process) (net : Network)
    (versionUuid path : string) (cfg : Api.LatitudeConfig) :
  Api.getConfig p = Returned cfg ->
  length (Api.deleteDocument parse_error parse_any p net versionUuid path).2 = 1%nat.
Proof.
  intros H. unfold Api.deleteDocument.
  rewrite (getProjectId_configured p cfg H). cbn [bind].
  pose proof (request_one parse_any p net
    ("/projects/" ++ Api.projectId cfg ++ "/versions/" ++ versionUuid ++
     "/documents/" ++ Js.strip_leading_slash path)
    (Api.mkRequestOptions (Some "DELETE") None None) cfg H) as Hone.
  destruct (Api.request _ _ _ _ _ _) as [[v|e|] s]; cbn in Hone |- *;
    rewrite ?length_app; cbn; lia.
Qed.

Lemma createOrUpdateDocument_one (p : Config.Process) (net : Network)
    (versionUuid path content : string) (force : bool) (cfg : Api.LatitudeConfig) :
  Api.getConfig p = Returned cfg ->
  length (Api.createOrUpdateDocument parse_error parse_document
            stringify_document p net versionUuid path content force).2 = 1%nat.
Proof.
  intros H. unfold Api.createOrUpdateDocument.
  rewrite (getProjectId_configured p cfg H). cbn [bind].
  pose proof (request_one parse_document p net
    ("/projects/" ++ Api.projectId cfg ++ "/versions/" ++ versionUuid ++
     "/documents/create-or-update")
    (Api.mkRequestOptions (Some "POST")
       (Some (stringify_document path content force)) None) cfg H) as Hone.
  destruct (Api.request _ _ _ _ _ _) as [o s]. cbn in Hone |- *. exact Hone.
Qed.

Lemma paths_where_cons (f : Api.DocumentChange -> bool) (c : Api.DocumentChange)
    (rest : list Api.DocumentChange) :
  paths_where f (c :: rest) =
  if f c then Api.dc_path c :: paths_where f rest else paths_where f rest.
Proof. unfold paths_where. cbn [List.filter]. destruct (f c); reflexivity. Qed.

(** The loop of [deployToLive], when it runs to its end: the arrays it
    returns, and the number of requests it has sent. *)
Lemma deploy_changes_returned (p : Config.Process) (net : Network)
    (changes : list Api.DocumentChange) :
  forall (a m d : list string) (r : list string * list string * list string)
         (sent : list HttpRequest),
    Api.deploy_changes parse_error parse_document parse_any stringify_document
      p net changes a m d = (Returned r, sent) ->
    r.1.1 = (a ++ paths_where is_added changes)%list /\
    r.1.2 = (m ++ paths_where is_modified changes)%list /\
    (exists dl, r.2 = (d ++ dl)%list /\
                sublist dl (paths_where is_deleted changes)) /\
    (forall cfg, Api.getConfig p = Returned cfg -> length sent = length changes).
Proof.
  induction changes as [|c rest IH]; intros a m d r sent Hrun.
  - cbn in Hrun. injection Hrun as <- <-. cbn.
    rewrite !app_nil_r. split; [reflexivity|]. split; [reflexivity|]. split.
    + exists []. rewrite app_nil_r. split; [reflexivity | constructor].
    + reflexivity.
  - cbn [Api.deploy_changes] in Hrun. rewrite !paths_where_cons.
    unfold is_added at 1, is_modified at 1. unfold is_deleted at 1 2 3.
    destruct (String.eqb (Api.dc_status c) "deleted") eqn:Hdel.
    + apply bind_returned in Hrun.
      destruct Hrun as (d' & s1 & s2 & Htry & Hrest & ->).
      apply IH in Hrest. destruct Hrest as (Ha & Hm & (dl & Hd & Hsub) & Hlen).
      cbn [negb andb].
      split; [exact Ha|]. split; [exact Hm|]. split.
      * unfold try_catch, bind in Htry.
        destruct (Api.deleteDocument parse_error parse_any p net "live"
                    (Api.dc_path c)) as [[u|e|] sd]; cbn in Htry.
        -- injection Htry as <- <-. exists (Api.dc_path c :: dl).
           rewrite Hd, <- app_assoc. split; [reflexivity|].
           apply sublist_skip. exact Hsub.
        -- injection Htry as <- <-. exists dl. split; [exact Hd|].
           apply sublist_cons. exact Hsub.
        -- discriminate Htry.
      * intros cfg Hcfg. rewrite length_app, (Hlen cfg Hcfg). cbn [length].
        unfold try_catch, bind in Htry.
        pose proof (deleteDocument_one p net "live" (Api.dc_path c) cfg Hcfg) as Hone.
        destruct (Api.deleteDocument parse_error parse_any p net "live"
                    (Api.dc_path c)) as [[u|e|] sd]; cbn in Htry, Hone.
        -- injection Htry as _ <-. rewrite length_app. cbn. lia.
        -- injection Htry as _ <-. rewrite !length_app. cbn. lia.
        -- discriminate Htry.
    + apply bind_returned in Hrun.
      destruct Hrun as (doc & s1 & s2 & Hput & Hrest & ->).
      cbn [negb andb].
      assert (Hlen1 : forall cfg, Api.getConfig p = Returned cfg -> length s1 = 1%nat).
      { intros cfg Hcfg.
        pose proof (createOrUpdateDocument_one p net "live" (Api.dc_path c)
                      (Api.dc_content c) true cfg Hcfg) as Hone.
        rewrite Hput in Hone. exact Hone. }
      destruct (String.eqb (Api.dc_status c) "added") eqn:Hadd;
        apply IH in Hrest; destruct Hrest as (Ha & Hm & Hd & Hlen).
      * split; [rewrite Ha, <- app_assoc; reflexivity|].
        split; [exact Hm|]. split; [exact Hd|].
        intros cfg Hcfg. rewrite length_app, (Hlen cfg Hcfg), (Hlen1 cfg Hcfg).
        reflexivity.
      * split; [exact Ha|].
        split; [rewrite Hm, <- app_assoc; reflexivity|]. split; [exact Hd|].
        intros cfg Hcfg. rewrite length_app, (Hlen cfg Hcfg), (Hlen1 cfg Hcfg).
        reflexivity.
Qed.


End DocumentOperations.

Lemma getDocument_leading_slash_witness :
  Api.getDocument Claims.no_error_payload Claims.rejecting_json
    Claims.configured_process Claims.silent_network "/support/triage" "live"
  = Api.getDocument Claims.no_error_payload Claims.rejecting_json
    Claims.configured_process Claims.silent_network "support/triage" "live".
Proof.
  refine (proj1 (getDocument_leading_slash Claims.no_error_payload
    Claims.rejecting_json Claims.rejecting_json (T := unit) (U := unit)
    "https://gateway.latitude.so" "v3" (fun _ => inl tt) (fun _ => inl tt)
    Claims.configured_process Claims.silent_network "42" "live"
    "support/triage" _)).
  reflexivity.
Defined.


(** ** [deployToLive]: requests and partial deployment *)
Section DeployProperties.
Import Net Claims Samples.

Variable parse_error : string -> option ErrorUtil.LatitudeError.
Variable parse_document : string -> Api.Document + string.
Variable parse_documents : string -> list Api.Document + string.
Variable parse_any : string -> unit + string.
Variable stringify_document : string -> string -> bool -> string.

Lemma bind_ext {A B : Type} (m : Run A) (f g : A -> Run B) :
  (forall a, f a = g a) -> bind m f = bind m g.
Proof.
  intros H. unfold bind. destruct m as [[a|e|] s]; try reflexivity.
  rewrite H. reflexivity.
Qed.

Lemma deploy_changes_app (p : Config.Process) (net : Network)
    (first second : list Api.DocumentChange) :
  forall a m d,
    Api.deploy_changes parse_error parse_document parse_any stringify_document
      p net (first ++ second) a m d
    = bind (Api.deploy_changes parse_error parse_document parse_any
              stringify_document p net first a m d)
        (fun r => Api.deploy_changes parse_error parse_document parse_any
                    stringify_document p net second r.1.1 r.1.2 r.2).
Proof.
  induction first as [|c rest IH]; intros a m d.
  - cbn. destruct (Api.deploy_changes _ _ _ _ _ _ second a m d) as [o s].
    reflexivity.
  - cbn [app Api.deploy_changes].
    destruct (String.eqb (Api.dc_status c) "deleted").
    + rewrite bind_assoc. apply bind_ext. intros d'. apply IH.
    + rewrite bind_assoc. apply bind_ext. intros _.
      destruct (String.eqb (Api.dc_status c) "added"); apply IH.
Qed.

(** X24.  A [deployToLive] that returns has sent one request per change and
    one more to list the documents: nothing is sent twice. *)
Theorem deployToLive_requests (p : Config.Process) (net : Network)
    (changes : list Api.DocumentChange) (cfg : Api.LatitudeConfig)
    (r : Api.DeployResult) (sent : list HttpRequest) :
  Api.getConfig p = Returned cfg ->
  Api.deployToLive parse_error parse_document parse_documents parse_any
    stringify_document p net changes = (Returned r, sent) ->
  length sent = (length changes + 1)%nat.
Proof.
  intros Hcfg Hdeploy. unfold Api.deployToLive in Hdeploy.
  apply bind_returned in Hdeploy.
  destruct Hdeploy as (pushed & s1 & s2 & Hloop & Hlist & ->).
  apply bind_returned in Hlist.
  destruct Hlist as (docs & s3 & s4 & Hdocs & Hret & ->).
  injection Hret as _ <-.
  apply deploy_changes_returned in Hloop.
  destruct Hloop as (_ & _ & _ & Hlen).
  rewrite !length_app, (Hlen cfg Hcfg). cbn [length].
  unfold Api.listDocuments in Hdocs.
  rewrite (getProjectId_configured p cfg Hcfg) in Hdocs. cbn [bind] in Hdocs.
  pose proof (request_one parse_error parse_documents p net
    ("/projects/" ++ Api.projectId cfg ++ "/versions/" ++ "live" ++ "/documents")
    Api.noOptions cfg Hcfg) as Hone.
  destruct (Api.request _ _ _ _ _ _) as [o s]. cbn in Hone.
  injection Hdocs as _ <-. cbn [app]. lia.
Qed.

(** X25.  [deployToLive] is not atomic: when the create-or-update of a change
    throws, the deployment throws that error at once; the requests of
    the changes before it have been sent and stay applied, and nothing
    is sent for the changes after it. *)
Theorem deployToLive_stops_at_failed_upsert (p : Config.Process) (net : Network)
    (before after : list Api.DocumentChange) (c : Api.DocumentChange)
    (r0 : list string * list string * list string)
    (s1 s2 : list HttpRequest) (e : Thrown) :
  Api.deploy_changes parse_error parse_document parse_any stringify_document
    p net before [] [] [] = (Returned r0, s1) ->
  is_deleted c = false ->
  Api.createOrUpdateDocument parse_error parse_document stringify_document
    p net "live" (Api.dc_path c) (Api.dc_content c) true = (Threw e, s2) ->
  Api.deployToLive parse_error parse_document parse_documents parse_any
    stringify_document p net (before ++ c :: after)
  = (Threw e, (s1 ++ s2)%list).
Proof.
  intros Hbefore Hkind Hput. unfold Api.deployToLive.
  rewrite deploy_changes_app, Hbefore. cbn [bind Api.deploy_changes].
  unfold is_deleted in Hkind. rewrite Hkind, Hput. reflexivity.
Qed.

End DeployProperties.

Lemma deployToLive_requests_witness :
  length
    (Api.deployToLive Claims.no_error_payload Claims.rejecting_json
       Claims.rejecting_json Claims.rejecting_json
       (fun path _ _ => path) Claims.configured_process Samples.no_delete_network
       Samples.three_changes).2 = 4%nat.
Proof.
  refine (deployToLive_requests Claims.no_error_payload Claims.rejecting_json
    Claims.rejecting_json Claims.rejecting_json (fun path _ _ => path)
    Claims.configured_process Samples.no_delete_network Samples.three_changes
    (Api.mkLatitudeConfig "lat-key-1" "42" Api.DEFAULT_BASE_URL) _ _ _ _).
  - reflexivity.
  - reflexivity.
Defined.

Lemma deployToLive_stops_at_failed_upsert_witness :
  (Api.deployToLive Claims.no_error_payload Claims.rejecting_json
     Claims.rejecting_json Claims.rejecting_json
     (fun path _ _ => path) Claims.configured_process
     (Claims.answering 20 Samples.plain_500)
     (Api.mkDocumentChange "gone" EmptyString "deleted"
      :: Api.mkDocumentChange "a" "A" "added" :: Samples.three_changes)).1
  = Net.Threw (LatitudeApiError
      (ErrorUtil.mkLatitudeError "HTTPError" "HTTP_500" "Internal Server Error") 500).
Proof.
  refine (f_equal fst (deployToLive_stops_at_failed_upsert
    Claims.no_error_payload Claims.rejecting_json Claims.rejecting_json
    Claims.rejecting_json (fun path _ _ => path) Claims.configured_process
    (Claims.answering 20 Samples.plain_500)
    [Api.mkDocumentChange "gone" EmptyString "deleted"] Samples.three_changes
    (Api.mkDocumentChange "a" "A" "added") _ _ _ _ _ _ _)).
  - reflexivity.
  - reflexivity.
  - reflexivity.
Defined.
